(** * The Google Compute Engine driver: lifecycle operations

    A shallow embedding of [drivers/google/google.go].  The driver's
    methods are sequences of calls into collaborators whose code lives in
    other files (the compute client, ssh key generation, the file system);
    those are the fields of the [Cloud] class below, and every theorem is
    stated for an arbitrary instance of it.  Each method is a computation
    in a state-and-trace monad: the state is the receiver [*Driver] and
    the remote world, the trace is the list of collaborator calls in the
    order they were issued, each with the error it returned.  Logging
    calls have no effect on control flow and are left out. *)

From Stdlib Require Import String List ZArith Bool Lia.
From Stdlib Require Import Ascii.
Import ListNotations.
Open Scope string_scope.
Open Scope list_scope.

(** ** Go values *)

(** Go's [error] values that reach this file.  [errorString] is what
    [errors.New] builds, [wrapError] what [fmt.Errorf] builds (the format
    and its arguments, not rendered), [joinError] what [errors.Join]
    builds from a non-empty list, [foreignError] any error made by a
    collaborator (an API status code and the text), [hostIsNotRunning]
    the sentinel [drivers.ErrHostIsNotRunning], told apart by identity. *)
#[local] Set Warnings "-register-all".
Inductive error : Type :=
| errorString (text : string)
| wrapError (format : string) (args : list fmtArg)
| joinError (errs : list error)
| foreignError (code : Z) (text : string)
| hostIsNotRunning
with fmtArg : Type :=
| argString (s : string)
| argError (e : error).

Module errors.
Definition New (text : string) : error := errorString text.

(** [errors.Join] drops nil values and returns nil when nothing is left;
    the lists built in this file hold non-nil errors only. *)
Definition Join (errs : list error) : option error :=
  match errs with
  | [] => None
  | _ :: _ => Some (joinError errs)
  end.
End errors.

Module fmt.
Definition Errorf (format : string) (args : list fmtArg) : error :=
  wrapError format args.

(** [fmt.Sprintf] for a format whose only verb is one [%s], applied to a
    string operand. *)
Fixpoint Sprintf (format : string) (a : string) : string :=
  match format with
  | EmptyString => EmptyString
  | String "%"%char (String "s"%char rest) => (a ++ rest)%string
  | String c rest => String c (Sprintf rest a)
  end.
End fmt.

Module strings.
(** [strings.Contains s substr]. *)
Fixpoint Contains (s substr : string) : bool :=
  String.prefix substr s ||
  match s with
  | EmptyString => false
  | String _ s' => Contains s' substr
  end.

Fixpoint drop (n : nat) (s : string) : string :=
  match n, s with
  | O, _ => s
  | S _, EmptyString => EmptyString
  | S n', String _ s' => drop n' s'
  end.

(** [strings.TrimPrefix s prefix]. *)
Definition TrimPrefix (s prefix : string) : string :=
  if String.prefix prefix s then drop (String.length prefix) s else s.
End strings.

(** Modelled from the spec: the [state] package is not part of the sources
    at hand; its [State] type is given by the glossary's coarse lifecycle
    states, one of None, NotFound, Stopped, Starting, Running. *)
Module state.
Inductive State : Type := None | NotFound | Stopped | Starting | Running.
End state.

(** The [drivers] package: the embedded base driver (the fields this file
    reads or writes), the flag reader interface and the sentinel error. *)
Module drivers.
Record BaseDriver : Type := mkBaseDriver {
  IPAddress : string;
  MachineName : string;
  SSHUser : string;
  SSHPort : Z;
  StorePath : string
}.

Definition set_IPAddress (v : string) (b : BaseDriver) : BaseDriver :=
  let 'mkBaseDriver _ name user port store := b in mkBaseDriver v name user port store.
Definition set_SSHUser (v : string) (b : BaseDriver) : BaseDriver :=
  let 'mkBaseDriver addr name _ port store := b in mkBaseDriver addr name v port store.
Definition set_SSHPort (v : Z) (b : BaseDriver) : BaseDriver :=
  let 'mkBaseDriver addr name user _ store := b in mkBaseDriver addr name user v store.

(** [drivers.DriverOptions]: the interface the flags are read through. *)
Record DriverOptions : Type := mkDriverOptions {
  String : string -> string;
  StringSlice : string -> list string;
  Int : string -> Z;
  Bool : string -> bool
}.

(** [drivers.ErrHostIsNotRunning], a package-level sentinel. *)
Definition ErrHostIsNotRunning : error := hostIsNotRunning.
End drivers.

(** ** The driver *)

Record Driver : Type := mkDriver {
  BaseDriver : drivers.BaseDriver;
  Auth : string;
  Zone : string;
  MachineType : string;
  MachineImage : string;
  DiskType : string;
  Address : string;
  Network : string;
  Subnetwork : string;
  Preemptible : bool;
  UseInternalIP : bool;
  UseInternalIPOnly : bool;
  Scopes : string;
  DiskSize : Z;
  Project : string;
  Tags : string;
  Labels : string;
  UseExisting : bool;
  OpenPorts : list string;
  ExternalFirewallRulePrefix : string;
  InternalFirewallRulePrefix : string;
  Userdata : string
}.

(** Field assignments [d.F = v], one setter per field. *)
Definition set_BaseDriver (v : drivers.BaseDriver) (d : Driver) : Driver :=
  let 'mkDriver _ au zo mt mi dt ad nw sn pe ii io sc ds pr tg lb ue op ef if_ ud := d in
  mkDriver v au zo mt mi dt ad nw sn pe ii io sc ds pr tg lb ue op ef if_ ud.

Definition set_Auth (v : string) (d : Driver) : Driver :=
  let 'mkDriver b _ zo mt mi dt ad nw sn pe ii io sc ds pr tg lb ue op ef if_ ud := d in
  mkDriver b v zo mt mi dt ad nw sn pe ii io sc ds pr tg lb ue op ef if_ ud.

Definition set_Zone (v : string) (d : Driver) : Driver :=
  let 'mkDriver b au _ mt mi dt ad nw sn pe ii io sc ds pr tg lb ue op ef if_ ud := d in
  mkDriver b au v mt mi dt ad nw sn pe ii io sc ds pr tg lb ue op ef if_ ud.

Definition set_MachineType (v : string) (d : Driver) : Driver :=
  let 'mkDriver b au zo _ mi dt ad nw sn pe ii io sc ds pr tg lb ue op ef if_ ud := d in
  mkDriver b au zo v mi dt ad nw sn pe ii io sc ds pr tg lb ue op ef if_ ud.

Definition set_MachineImage (v : string) (d : Driver) : Driver :=
  let 'mkDriver b au zo mt _ dt ad nw sn pe ii io sc ds pr tg lb ue op ef if_ ud := d in
  mkDriver b au zo mt v dt ad nw sn pe ii io sc ds pr tg lb ue op ef if_ ud.

Definition set_DiskType (v : string) (d : Driver) : Driver :=
  let 'mkDriver b au zo mt mi _ ad nw sn pe ii io sc ds pr tg lb ue op ef if_ ud := d in
  mkDriver b au zo mt mi v ad nw sn pe ii io sc ds pr tg lb ue op ef if_ ud.

Definition set_Address (v : string) (d : Driver) : Driver :=
  let 'mkDriver b au zo mt mi dt _ nw sn pe ii io sc ds pr tg lb ue op ef if_ ud := d in
  mkDriver b au zo mt mi dt v nw sn pe ii io sc ds pr tg lb ue op ef if_ ud.

Definition set_Network (v : string) (d : Driver) : Driver :=
  let 'mkDriver b au zo mt mi dt ad _ sn pe ii io sc ds pr tg lb ue op ef if_ ud := d in
  mkDriver b au zo mt mi dt ad v sn pe ii io sc ds pr tg lb ue op ef if_ ud.

Definition set_Subnetwork (v : string) (d : Driver) : Driver :=
  let 'mkDriver b au zo mt mi dt ad nw _ pe ii io sc ds pr tg lb ue op ef if_ ud := d in
  mkDriver b au zo mt mi dt ad nw v pe ii io sc ds pr tg lb ue op ef if_ ud.

Definition set_Preemptible (v : bool) (d : Driver) : Driver :=
  let 'mkDriver b au zo mt mi dt ad nw sn _ ii io sc ds pr tg lb ue op ef if_ ud := d in
  mkDriver b au zo mt mi dt ad nw sn v ii io sc ds pr tg lb ue op ef if_ ud.

Definition set_UseInternalIP (v : bool) (d : Driver) : Driver :=
  let 'mkDriver b au zo mt mi dt ad nw sn pe _ io sc ds pr tg lb ue op ef if_ ud := d in
  mkDriver b au zo mt mi dt ad nw sn pe v io sc ds pr tg lb ue op ef if_ ud.

Definition set_UseInternalIPOnly (v : bool) (d : Driver) : Driver :=
  let 'mkDriver b au zo mt mi dt ad nw sn pe ii _ sc ds pr tg lb ue op ef if_ ud := d in
  mkDriver b au zo mt mi dt ad nw sn pe ii v sc ds pr tg lb ue op ef if_ ud.

Definition set_Scopes (v : string) (d : Driver) : Driver :=
  let 'mkDriver b au zo mt mi dt ad nw sn pe ii io _ ds pr tg lb ue op ef if_ ud := d in
  mkDriver b au zo mt mi dt ad nw sn pe ii io v ds pr tg lb ue op ef if_ ud.

Definition set_DiskSize (v : Z) (d : Driver) : Driver :=
  let 'mkDriver b au zo mt mi dt ad nw sn pe ii io sc _ pr tg lb ue op ef if_ ud := d in
  mkDriver b au zo mt mi dt ad nw sn pe ii io sc v pr tg lb ue op ef if_ ud.

Definition set_Project (v : string) (d : Driver) : Driver :=
  let 'mkDriver b au zo mt mi dt ad nw sn pe ii io sc ds _ tg lb ue op ef if_ ud := d in
  mkDriver b au zo mt mi dt ad nw sn pe ii io sc ds v tg lb ue op ef if_ ud.

Definition set_Tags (v : string) (d : Driver) : Driver :=
  let 'mkDriver b au zo mt mi dt ad nw sn pe ii io sc ds pr _ lb ue op ef if_ ud := d in
  mkDriver b au zo mt mi dt ad nw sn pe ii io sc ds pr v lb ue op ef if_ ud.

Definition set_Labels (v : string) (d : Driver) : Driver :=
  let 'mkDriver b au zo mt mi dt ad nw sn pe ii io sc ds pr tg _ ue op ef if_ ud := d in
  mkDriver b au zo mt mi dt ad nw sn pe ii io sc ds pr tg v ue op ef if_ ud.

Definition set_UseExisting (v : bool) (d : Driver) : Driver :=
  let 'mkDriver b au zo mt mi dt ad nw sn pe ii io sc ds pr tg lb _ op ef if_ ud := d in
  mkDriver b au zo mt mi dt ad nw sn pe ii io sc ds pr tg lb v op ef if_ ud.

Definition set_OpenPorts (v : list string) (d : Driver) : Driver :=
  let 'mkDriver b au zo mt mi dt ad nw sn pe ii io sc ds pr tg lb ue _ ef if_ ud := d in
  mkDriver b au zo mt mi dt ad nw sn pe ii io sc ds pr tg lb ue v ef if_ ud.

Definition set_ExternalFirewallRulePrefix (v : string) (d : Driver) : Driver :=
  let 'mkDriver b au zo mt mi dt ad nw sn pe ii io sc ds pr tg lb ue op _ if_ ud := d in
  mkDriver b au zo mt mi dt ad nw sn pe ii io sc ds pr tg lb ue op v if_ ud.

Definition set_InternalFirewallRulePrefix (v : string) (d : Driver) : Driver :=
  let 'mkDriver b au zo mt mi dt ad nw sn pe ii io sc ds pr tg lb ue op ef _ ud := d in
  mkDriver b au zo mt mi dt ad nw sn pe ii io sc ds pr tg lb ue op ef v ud.

Definition set_Userdata (v : string) (d : Driver) : Driver :=
  let 'mkDriver b au zo mt mi dt ad nw sn pe ii io sc ds pr tg lb ue op ef if_ _ := d in
  mkDriver b au zo mt mi dt ad nw sn pe ii io sc ds pr tg lb ue op ef if_ v.

(** ** Collaborators *)

(** [compute.Instance] of the provider's client library; only its status
    is read here. *)
Record Instance : Type := mkInstance { Status : string }.

(** The calls a method can issue to a collaborator. *)
Inductive Call : Type :=
| call_GenerateSSHKey
| call_ReadFile
| call_newComputeUtil
| call_Projects_Get
| call_instance
| call_disk
| call_ip
| call_externalFirewallRule
| call_internalFirewallRule
| call_openPublicFirewallPorts
| call_openInternalFirewallPorts
| call_CleanUpFirewallRule (labelKey : string)
| call_configureInstance
| call_createInstance
| call_startInstance
| call_stopInstance
| call_deleteInstance
| call_deleteDisk.

(** A call together with the error it returned ([None] is Go's nil). *)
Definition Event : Type := (Call * option error)%type.

(** Calls that create or reconfigure the instance. *)
Definition is_instance_mutation (c : Call) : bool :=
  match c with
  | call_configureInstance | call_createInstance => true
  | _ => false
  end.

(** Calls that change remote state at the provider. *)
Definition is_provider_mutation (c : Call) : bool :=
  match c with
  | call_openPublicFirewallPorts | call_openInternalFirewallPorts
  | call_CleanUpFirewallRule _
  | call_configureInstance | call_createInstance
  | call_startInstance | call_stopInstance
  | call_deleteInstance | call_deleteDisk => true
  | _ => false
  end.

Definition is_call_deleteDisk (c : Call) : bool :=
  match c with call_deleteDisk => true | _ => false end.

Definition is_call_GenerateSSHKey (c : Call) : bool :=
  match c with call_GenerateSSHKey => true | _ => false end.

Definition is_call_openPublicFirewallPorts (c : Call) : bool :=
  match c with call_openPublicFirewallPorts => true | _ => false end.

(** The calls [Stop] is made of. *)
Definition is_Stop_call (c : Call) : bool :=
  match c with call_newComputeUtil | call_stopInstance => true | _ => false end.

Definition calls (t : list Event) : list Call := map fst t.

(** Everything the driver file calls but does not define: the methods of
    [ComputeUtil] and [isNotFound] from the compute helper file, the base
    driver's methods, [ssh.GenerateSSHKey], [os.ReadFile] and the
    [Error] method of error values.  A call that touches the outside
    takes the world and returns the next one; a call that is handed the
    receiver reads it. *)
Class Cloud : Type := {
  World : Type;
  ComputeUtil : Type;
  Disk : Type;
  Firewall : Type;
  (* error values *)
  Error : error -> string;
  isNotFound : option error -> bool;
  (* base driver *)
  GetSSHKeyPath : drivers.BaseDriver -> string;
  SetSwarmConfigFromFlags :
    drivers.BaseDriver -> drivers.DriverOptions -> drivers.BaseDriver;
  (* ssh, os *)
  ssh_GenerateSSHKey : string -> World -> option error * World;
  os_ReadFile : string -> World -> (string + error) * World;
  (* compute helper *)
  newComputeUtil_ : Driver -> World -> (ComputeUtil + error) * World;
  internalFirewallRulePrefix : ComputeUtil -> string;
  externalFirewallRuleLabelKey : string;
  internalFirewallRuleLabelKey : string;
  Projects_Get_ : ComputeUtil -> string -> World -> option error * World;
  instance_ : ComputeUtil -> World -> (option Instance * option error) * World;
  disk_ : ComputeUtil -> World -> (option Disk * option error) * World;
  ip_ : ComputeUtil -> World -> (string * option error) * World;
  externalFirewallRule_ :
    ComputeUtil -> World -> (option Firewall * option error) * World;
  internalFirewallRule_ :
    ComputeUtil -> World -> (option Firewall * option error) * World;
  openPublicFirewallPorts_ : ComputeUtil -> Driver -> World -> option error * World;
  openInternalFirewallPorts_ : ComputeUtil -> Driver -> World -> option error * World;
  CleanUpFirewallRule_ :
    ComputeUtil -> option Firewall -> string -> World -> option error * World;
  configureInstance_ : ComputeUtil -> Driver -> World -> option error * World;
  createInstance_ : ComputeUtil -> Driver -> World -> option error * World;
  startInstance_ : ComputeUtil -> World -> option error * World;
  stopInstance_ : ComputeUtil -> World -> option error * World;
  deleteInstance_ : ComputeUtil -> World -> option error * World;
  deleteDisk_ : ComputeUtil -> World -> option error * World
}.

(** ** The monad of driver methods *)

Section Methods.
Context {cloud : Cloud}.

(** What a method leaves behind: its return value, the receiver, the
    world, and the calls it issued, oldest first. *)
Record Outcome (A : Type) : Type := mkOutcome {
  result : A;
  driver : Driver;
  world : World;
  trace : list Event
}.
Arguments mkOutcome {A}.
Arguments result {A}.
Arguments driver {A}.
Arguments world {A}.
Arguments trace {A}.

Definition M (A : Type) : Type := Driver -> World -> Outcome A.

Definition ret {A} (a : A) : M A := fun d w => mkOutcome a d w [].

Definition bind {A B} (m : M A) (k : A -> M B) : M B :=
  fun d w =>
    match m d w with
    | mkOutcome a d1 w1 t1 =>
      match k a d1 w1 with
      | mkOutcome b d2 w2 t2 => mkOutcome b d2 w2 (t1 ++ t2)
      end
    end.

(** The receiver [d]. *)
Definition this : M Driver := fun d w => mkOutcome d d w [].

(** An assignment to a field of the receiver. *)
Definition assign (f : Driver -> Driver) : M unit :=
  fun d w => mkOutcome tt (f d) w [].

(** One call to a collaborator, recorded with the error it returned. *)
Definition perform {R} (c : Call) (errOf : R -> option error)
    (op : World -> R * World) : M R :=
  fun d w => let (r, w') := op w in mkOutcome r d w' [(c, errOf r)].

End Methods.

Arguments mkOutcome {cloud A}.
Arguments result {cloud A}.
Arguments driver {cloud A}.
Arguments world {cloud A}.
Arguments trace {cloud A}.

Declare Scope go_scope.
Delimit Scope go_scope with go.
Notation "x <- m ;; k" := (bind m (fun x => k))
  (at level 61, m at next level, right associativity) : go_scope.
Notation "' pat <- m ;; k" := (bind m (fun x => match x with pat => k end))
  (at level 61, pat pattern, m at next level, right associativity) : go_scope.
Open Scope go_scope.
Notation "m ;; k" := (bind m (fun _ => k))
  (at level 61, right associativity) : go_scope.

(** ** The methods of [google.go] *)

Section Google.
Context {cloud : Cloud}.

Definition errOfSum {A} (r : A + error) : option error :=
  match r with inl _ => None | inr e => Some e end.

Definition errOfPair {A} (r : A * option error) : option error := snd r.

Definition errOfIt (r : option error) : option error := r.

(** The collaborators' calls, as steps of a method. *)
Definition GenerateSSHKey (path : string) : M (option error) :=
  perform call_GenerateSSHKey errOfIt (ssh_GenerateSSHKey path).
Definition ReadFile (path : string) : M (string + error) :=
  perform call_ReadFile errOfSum (os_ReadFile path).
Definition newComputeUtil (d : Driver) : M (ComputeUtil + error) :=
  perform call_newComputeUtil errOfSum (newComputeUtil_ d).
Definition Projects_Get (c : ComputeUtil) (project : string) : M (option error) :=
  perform call_Projects_Get errOfIt (Projects_Get_ c project).
Definition instance (c : ComputeUtil) : M (option Instance * option error) :=
  perform call_instance errOfPair (instance_ c).
Definition disk (c : ComputeUtil) : M (option Disk * option error) :=
  perform call_disk errOfPair (disk_ c).
Definition ip (c : ComputeUtil) : M (string * option error) :=
  perform call_ip errOfPair (ip_ c).
Definition externalFirewallRule (c : ComputeUtil) : M (option Firewall * option error) :=
  perform call_externalFirewallRule errOfPair (externalFirewallRule_ c).
Definition internalFirewallRule (c : ComputeUtil) : M (option Firewall * option error) :=
  perform call_internalFirewallRule errOfPair (internalFirewallRule_ c).
Definition openPublicFirewallPorts (c : ComputeUtil) (d : Driver) : M (option error) :=
  perform call_openPublicFirewallPorts errOfIt (openPublicFirewallPorts_ c d).
Definition openInternalFirewallPorts (c : ComputeUtil) (d : Driver) : M (option error) :=
  perform call_openInternalFirewallPorts errOfIt (openInternalFirewallPorts_ c d).
Definition CleanUpFirewallRule (c : ComputeUtil) (rule : option Firewall)
    (labelKey : string) : M (option error) :=
  perform (call_CleanUpFirewallRule labelKey) errOfIt (CleanUpFirewallRule_ c rule labelKey).
Definition configureInstance (c : ComputeUtil) (d : Driver) : M (option error) :=
  perform call_configureInstance errOfIt (configureInstance_ c d).
Definition createInstance (c : ComputeUtil) (d : Driver) : M (option error) :=
  perform call_createInstance errOfIt (createInstance_ c d).
Definition startInstance (c : ComputeUtil) : M (option error) :=
  perform call_startInstance errOfIt (startInstance_ c).
Definition stopInstance (c : ComputeUtil) : M (option error) :=
  perform call_stopInstance errOfIt (stopInstance_ c).
Definition deleteInstance (c : ComputeUtil) : M (option error) :=
  perform call_deleteInstance errOfIt (deleteInstance_ c).
Definition deleteDisk (c : ComputeUtil) : M (option error) :=
  perform call_deleteDisk errOfIt (deleteDisk_ c).

Definition defaultZone := "us-central1-a".
Definition defaultUser := "docker-user".
Definition defaultMachineType := "n1-standard-1".
Definition defaultImageName :=
  "ubuntu-os-cloud/global/images/ubuntu-2204-jammy-v20220420".
Definition defaultScopes :=
  "https://www.googleapis.com/auth/devstorage.read_only,https://www.googleapis.com/auth/logging.write,https://www.googleapis.com/auth/monitoring.write".
Definition defaultDiskType := "pd-standard".
Definition defaultDiskSize : Z := 10.
Definition defaultNetwork := "default".
Definition defaultSubnetwork := "".

(** [NewDriver]: fields not listed take Go's zero value. *)
Definition NewDriver (machineName storePath : string) : Driver :=
  {| BaseDriver := {| drivers.IPAddress := "";
                      drivers.MachineName := machineName;
                      drivers.SSHUser := defaultUser;
                      drivers.SSHPort := 0;
                      drivers.StorePath := storePath |};
     Auth := "";
     Zone := defaultZone;
     MachineType := defaultMachineType;
     MachineImage := defaultImageName;
     DiskType := defaultDiskType;
     Address := "";
     Network := defaultNetwork;
     Subnetwork := defaultSubnetwork;
     Preemptible := false;
     UseInternalIP := false;
     UseInternalIPOnly := false;
     Scopes := defaultScopes;
     DiskSize := defaultDiskSize;
     Project := "";
     Tags := "";
     Labels := "";
     UseExisting := false;
     OpenPorts := [];
     ExternalFirewallRulePrefix := "";
     InternalFirewallRulePrefix := "";
     Userdata := "" |}.

(** [SetConfigFromFlags]: the assignments in source order. *)
Definition SetConfigFromFlags (flags : drivers.DriverOptions) : M (option error) :=
  assign (set_Project (drivers.String flags "google-project")) ;;
  d <- this ;;
  if String.eqb (Project d) "" then
    ret (Some (errors.New "no Google Cloud Project name specified (--google-project)"))
  else
  assign (set_Auth (drivers.String flags "google-auth-encoded-json")) ;;
  assign (set_Zone (drivers.String flags "google-zone")) ;;
  assign (set_UseExisting (drivers.Bool flags "google-use-existing")) ;;
  d <- this ;;
  (if negb (UseExisting d) then
     assign (set_MachineType (drivers.String flags "google-machine-type")) ;;
     assign (set_MachineImage (drivers.String flags "google-machine-image")) ;;
     assign (fun d => set_MachineImage
               (strings.TrimPrefix (MachineImage d)
                  "https://www.googleapis.com/compute/v1/projects/") d) ;;
     assign (set_DiskSize (drivers.Int flags "google-disk-size")) ;;
     assign (set_DiskType (drivers.String flags "google-disk-type")) ;;
     assign (set_Address (drivers.String flags "google-address")) ;;
     assign (set_Network (drivers.String flags "google-network")) ;;
     assign (set_Subnetwork (drivers.String flags "google-subnetwork")) ;;
     assign (set_Preemptible (drivers.Bool flags "google-preemptible")) ;;
     assign (set_UseInternalIP
               (drivers.Bool flags "google-use-internal-ip"
                || drivers.Bool flags "google-use-internal-ip-only")) ;;
     assign (set_UseInternalIPOnly (drivers.Bool flags "google-use-internal-ip-only")) ;;
     assign (set_Scopes (drivers.String flags "google-scopes")) ;;
     assign (set_Tags (drivers.String flags "google-tags")) ;;
     assign (set_OpenPorts (drivers.StringSlice flags "google-open-port")) ;;
     assign (set_ExternalFirewallRulePrefix
               (drivers.String flags "google-external-firewall-rule-prefix")) ;;
     assign (set_InternalFirewallRulePrefix
               (drivers.String flags "google-internal-firewall-rule-prefix")) ;;
     assign (set_Labels (drivers.String flags "google-vm-labels"))
   else ret tt) ;;
  assign (fun d => set_BaseDriver
            (drivers.set_SSHUser (drivers.String flags "google-username") (BaseDriver d)) d) ;;
  assign (fun d => set_BaseDriver (drivers.set_SSHPort 22 (BaseDriver d)) d) ;;
  assign (set_Userdata (drivers.String flags "google-userdata")) ;;
  assign (fun d => set_BaseDriver (SetSwarmConfigFromFlags (BaseDriver d) flags) d) ;;
  ret None.

(** [PreCreateCheck]. *)
Definition PreCreateCheck : M (option error) :=
  d <- this ;;
  r <- newComputeUtil d ;;
  match r with
  | inr err => ret (Some err)
  | inl c =>
    err <- Projects_Get c (Project d) ;;
    match err with
    | Some err =>
      ret (Some (fmt.Errorf "Project with ID %q not found. %v"
                   [argString (Project d); argError err]))
    | None =>
      '(inst, _) <- instance c ;;
      match UseExisting d, inst with
      | true, None =>
        ret (Some (fmt.Errorf "unable to find instance %q in zone %q"
                     [argString (drivers.MachineName (BaseDriver d)); argString (Zone d)]))
      | false, Some _ =>
        ret (Some (fmt.Errorf "instance %q already exists in zone %q"
                     [argString (drivers.MachineName (BaseDriver d)); argString (Zone d)]))
      | _, _ =>
        if negb (String.eqb (Userdata d) "") then
          r <- ReadFile (Userdata d) ;;
          match r with
          | inr err =>
            ret (Some (fmt.Errorf "cannot read userdata file %v: %v"
                         [argString (Userdata d); argError err]))
          | inl file =>
            assign (set_Userdata file) ;;
            ret None
          end
        else ret None
      end
    end
  end.

(** [Create]. *)
Definition Create : M (option error) :=
  d <- this ;;
  err <- GenerateSSHKey (GetSSHKeyPath (BaseDriver d)) ;;
  match err with
  | Some err => ret (Some err)
  | None =>
    r <- newComputeUtil d ;;
    match r with
    | inr err => ret (Some err)
    | inl c =>
      err <- (if (0 <? length (OpenPorts d))%nat then
                if String.eqb (ExternalFirewallRulePrefix d) "" then
                  ret (Some (fmt.Errorf
                    "the 'google-external-firewall-rule-prefix' flag must be provided when opening ports publicly"
                    []))
                else openPublicFirewallPorts c d
              else ret None) ;;
      match err with
      | Some err => ret (Some err)
      | None =>
        err <- (if negb (String.eqb (InternalFirewallRulePrefix d) "") then
                  openInternalFirewallPorts c d
                else ret None) ;;
        match err with
        | Some err => ret (Some err)
        | None =>
          if UseExisting d then configureInstance c d
          else createInstance c d
        end
      end
    end
  end.

(** [GetIP]. *)
Definition GetIP : M (string * option error) :=
  d <- this ;;
  r <- newComputeUtil d ;;
  match r with
  | inr err => ret ("", Some err)
  | inl c =>
    '(addr, err) <- ip c ;;
    match err with
    | Some err => ret ("", Some err)
    | None =>
      if String.eqb addr "" then ret ("", Some drivers.ErrHostIsNotRunning)
      else ret (addr, None)
    end
  end.

(** [GetSSHHostname]. *)
Definition GetSSHHostname : M (string * option error) := GetIP.

(** [GetState]. *)
Definition GetState : M (state.State * option error) :=
  d <- this ;;
  r <- newComputeUtil d ;;
  match r with
  | inr err => ret (state.None, Some err)
  | inl c =>
    '(inst, err) <- instance c ;;
    match inst with
    | None =>
      if match err with
         | Some e => strings.Contains (Error e) "not found"
         | None => false
         end
      then ret (state.NotFound, None)
      else
        '(dk, _) <- disk c ;;
        match dk with
        | None => ret (state.None, None)
        | Some _ => ret (state.Stopped, None)
        end
    | Some i =>
      if String.eqb (Status i) "PROVISIONING" || String.eqb (Status i) "STAGING" then
        ret (state.Starting, None)
      else if String.eqb (Status i) "RUNNING" then
        ret (state.Running, None)
      else if String.eqb (Status i) "STOPPING" || String.eqb (Status i) "STOPPED"
              || String.eqb (Status i) "TERMINATED" then
        ret (state.Stopped, None)
      else ret (state.None, None)
    end
  end.

(** [Start]. *)
Definition Start : M (option error) :=
  d <- this ;;
  r <- newComputeUtil d ;;
  match r with
  | inr err => ret (Some err)
  | inl c =>
    '(inst, err) <- instance c ;;
    if match err with
       | Some _ => negb (isNotFound err)
       | None => false
       end
    then ret err
    else
      err <- match inst with
             | None => createInstance c d
             | Some _ => startInstance c
             end ;;
      match err with
      | Some err => ret (Some err)
      | None =>
        '(addr, err) <- GetIP ;;
        assign (fun d => set_BaseDriver (drivers.set_IPAddress addr (BaseDriver d)) d) ;;
        ret err
      end
  end.

(** [Stop]. *)
Definition Stop : M (option error) :=
  d <- this ;;
  r <- newComputeUtil d ;;
  match r with
  | inr err => ret (Some err)
  | inl c =>
    err <- stopInstance c ;;
    match err with
    | Some err => ret (Some err)
    | None =>
      assign (fun d => set_BaseDriver (drivers.set_IPAddress "" (BaseDriver d)) d) ;;
      ret None
    end
  end.

(** [Restart]. *)
Definition Restart : M (option error) :=
  err <- Stop ;;
  match err with
  | Some err => ret (Some err)
  | None => Start
  end.

(** [Kill]. *)
Definition Kill : M (option error) := Stop.

(** [Remove].  The slice [errs] is threaded through the two firewall
    blocks. *)
Definition Remove : M (option error) :=
  d <- this ;;
  r <- newComputeUtil d ;;
  match r with
  | inr err => ret (Some err)
  | inl c =>
    err <- deleteInstance c ;;
    if match err with
       | Some _ => negb (isNotFound err)
       | None => false
       end
    then ret err
    else
      err <- deleteDisk c ;;
      if match err with
         | Some _ => negb (isNotFound err)
         | None => false
         end
      then ret err
      else
        let errs : list error := [] in
        errs <- (if (0 <? length (OpenPorts d))%nat then
                   '(externalFwRule, err) <- externalFirewallRule c ;;
                   if isNotFound err then ret errs
                   else
                     match err with
                     | Some err => ret (errs ++ [err])
                     | None =>
                       err <- CleanUpFirewallRule c externalFwRule
                                externalFirewallRuleLabelKey ;;
                       match err with
                       | Some err => ret (errs ++ [err])
                       | None => ret errs
                       end
                     end
                 else ret errs) ;;
        errs <- (if negb (String.eqb (internalFirewallRulePrefix c) "") then
                   '(internalFwRule, err) <- internalFirewallRule c ;;
                   if isNotFound err then ret errs
                   else
                     match err with
                     | Some err => ret (errs ++ [err])
                     | None =>
                       err <- CleanUpFirewallRule c internalFwRule
                                internalFirewallRuleLabelKey ;;
                       match err with
                       | Some err => ret (errs ++ [err])
                       | None => ret errs
                       end
                     end
                 else ret errs) ;;
        ret (errors.Join errs)
  end.

End Google.

(** ** A test double for the collaborators

    A small in-memory provider: one instance slot, one disk, the two
    firewall rules, and a table of injected failures.  It is used to run
    the methods on concrete inputs. *)
Module Mock.

Record Remote : Type := mkRemote {
  remoteInstance : option Instance;
  remoteDisk : bool;
  remoteExternalRule : bool;
  remoteInternalRule : bool;
  remoteAddress : string;
  fault : Call -> option error
}.

Definition notFound : error := foreignError 404 "googleapi: Error 404: resource was not found".
Definition unavailable : error := foreignError 503 "googleapi: Error 503: backend unavailable".

Definition no_fault : Call -> option error := fun _ => None.

Definition with_instance (i : option Instance) (w : Remote) : Remote :=
  mkRemote i (remoteDisk w) (remoteExternalRule w) (remoteInternalRule w)
    (remoteAddress w) (fault w).
Definition with_disk (b : bool) (w : Remote) : Remote :=
  mkRemote (remoteInstance w) b (remoteExternalRule w) (remoteInternalRule w)
    (remoteAddress w) (fault w).
Definition with_externalRule (b : bool) (w : Remote) : Remote :=
  mkRemote (remoteInstance w) (remoteDisk w) b (remoteInternalRule w)
    (remoteAddress w) (fault w).
Definition with_internalRule (b : bool) (w : Remote) : Remote :=
  mkRemote (remoteInstance w) (remoteDisk w) (remoteExternalRule w) b
    (remoteAddress w) (fault w).
Definition with_address (a : string) (w : Remote) : Remote :=
  mkRemote (remoteInstance w) (remoteDisk w) (remoteExternalRule w) (remoteInternalRule w)
    a (fault w).

(** A mutation: fails with the injected fault if there is one. *)
Definition mutate (c : Call) (f : Remote -> option error * Remote) (w : Remote)
    : option error * Remote :=
  match fault w c with
  | Some e => (Some e, w)
  | None => f w
  end.

(** A lookup of a resource that is there or not. *)
Definition lookup {A} (c : Call) (f : Remote -> option A) (w : Remote)
    : (option A * option error) * Remote :=
  match fault w c with
  | Some e => ((None, Some e), w)
  | None =>
    match f w with
    | Some a => ((Some a, None), w)
    | None => ((None, Some notFound), w)
    end
  end.

Definition flag (b : bool) : option unit := if b then Some tt else None.

Definition set_status (s : string) (w : Remote) : option error * Remote :=
  match remoteInstance w with
  | Some _ => (None, with_instance (Some (mkInstance s)) w)
  | None => (Some notFound, w)
  end.

#[local] Instance cloud : Cloud := {|
  World := Remote;
  ComputeUtil := Driver;
  Disk := unit;
  Firewall := unit;
  Error := fun e =>
    match e with
    | errorString t | foreignError _ t => t
    | wrapError f _ => f
    | joinError _ => "joined errors"
    | hostIsNotRunning => "Host is not running"
    end;
  isNotFound := fun err =>
    match err with
    | Some (foreignError 404 _) => true
    | _ => false
    end;
  GetSSHKeyPath := fun b => (drivers.StorePath b ++ "/id_rsa")%string;
  SetSwarmConfigFromFlags := fun b _ => b;
  ssh_GenerateSSHKey := fun _ => mutate call_GenerateSSHKey (fun w => (None, w));
  os_ReadFile := fun path w =>
    match fault w call_ReadFile with
    | Some e => (inr e, w)
    | None => (inl ("#cloud-config from " ++ path)%string, w)
    end;
  newComputeUtil_ := fun d w =>
    match fault w call_newComputeUtil with
    | Some e => (inr e, w)
    | None => (inl d, w)
    end;
  internalFirewallRulePrefix := InternalFirewallRulePrefix;
  externalFirewallRuleLabelKey := "external-firewall-rule";
  internalFirewallRuleLabelKey := "internal-firewall-rule";
  Projects_Get_ := fun _ _ => mutate call_Projects_Get (fun w => (None, w));
  instance_ := fun _ => lookup call_instance remoteInstance;
  disk_ := fun _ => lookup call_disk (fun w => flag (remoteDisk w));
  ip_ := fun _ w =>
    match fault w call_ip with
    | Some e => (("", Some e), w)
    | None =>
      match remoteInstance w with
      | Some _ => ((remoteAddress w, None), w)
      | None => (("", Some notFound), w)
      end
    end;
  externalFirewallRule_ := fun _ =>
    lookup call_externalFirewallRule (fun w => flag (remoteExternalRule w));
  internalFirewallRule_ := fun _ =>
    lookup call_internalFirewallRule (fun w => flag (remoteInternalRule w));
  openPublicFirewallPorts_ := fun _ _ =>
    mutate call_openPublicFirewallPorts (fun w => (None, with_externalRule true w));
  openInternalFirewallPorts_ := fun _ _ =>
    mutate call_openInternalFirewallPorts (fun w => (None, with_internalRule true w));
  CleanUpFirewallRule_ := fun _ _ key =>
    mutate (call_CleanUpFirewallRule key)
      (fun w =>
         if String.eqb key "external-firewall-rule"
         then (None, with_externalRule false w)
         else (None, with_internalRule false w));
  configureInstance_ := fun _ _ => mutate call_configureInstance (set_status "RUNNING");
  createInstance_ := fun _ _ =>
    mutate call_createInstance
      (fun w => (None, with_address "203.0.113.7"
                         (with_disk true (with_instance (Some (mkInstance "RUNNING")) w))));
  startInstance_ := fun _ =>
    mutate call_startInstance
      (fun w => let (e, w') := set_status "RUNNING" w in (e, with_address "203.0.113.7" w'));
  stopInstance_ := fun _ =>
    mutate call_stopInstance
      (fun w => let (e, w') := set_status "TERMINATED" w in (e, with_address "" w'));
  deleteInstance_ := fun _ =>
    mutate call_deleteInstance
      (fun w =>
         match remoteInstance w with
         | Some _ => (None, with_address "" (with_instance None w))
         | None => (Some notFound, w)
         end);
  deleteDisk_ := fun _ =>
    mutate call_deleteDisk
      (fun w => if remoteDisk w then (None, with_disk false w) else (Some notFound, w))
|}.

(** Remote states. *)
Definition empty : Remote := mkRemote None false false false "" no_fault.
Definition running : Remote :=
  mkRemote (Some (mkInstance "RUNNING")) true true true "203.0.113.7" no_fault.
Definition failing (c : Call -> bool) (e : error) (w : Remote) : Remote :=
  mkRemote (remoteInstance w) (remoteDisk w) (remoteExternalRule w) (remoteInternalRule w)
    (remoteAddress w) (fun k => if c k then Some e else None).

(** Flag sets. *)
Definition flags (project : string) (useExisting internalIP internalIPOnly : bool)
    : drivers.DriverOptions :=
  {| drivers.String := fun k =>
       if String.eqb k "google-project" then project
       else if String.eqb k "google-zone" then "europe-west1-b"
       else if String.eqb k "google-machine-type" then "e2-medium"
       else if String.eqb k "google-machine-image" then
         "https://www.googleapis.com/compute/v1/projects/debian-cloud/global/images/debian-12"
       else if String.eqb k "google-username" then "ops"
       else if String.eqb k "google-external-firewall-rule-prefix" then "ext"
       else "";
     drivers.StringSlice := fun k =>
       if String.eqb k "google-open-port" then ["8080/tcp"] else [];
     drivers.Int := fun k => if String.eqb k "google-disk-size" then 50%Z else 0%Z;
     drivers.Bool := fun k =>
       if String.eqb k "google-use-existing" then useExisting
       else if String.eqb k "google-use-internal-ip" then internalIP
       else if String.eqb k "google-use-internal-ip-only" then internalIPOnly
       else false |}.

(** A configured driver: ports to open, both prefixes set. *)
Definition host : Driver :=
  set_InternalFirewallRulePrefix "int"
    (set_ExternalFirewallRulePrefix "ext"
       (set_OpenPorts ["8080/tcp"]
          (set_Project "proj" (NewDriver "vm-1" "/var/lib/machine")))).

End Mock.


(** ** Vocabulary of the properties *)

(** The fields that only matter when an instance is created. *)
Definition creation_fields_unchanged (d d' : Driver) : Prop :=
  MachineType d' = MachineType d /\
  MachineImage d' = MachineImage d /\
  DiskSize d' = DiskSize d /\
  DiskType d' = DiskType d /\
  Address d' = Address d /\
  Network d' = Network d /\
  Subnetwork d' = Subnetwork d /\
  Preemptible d' = Preemptible d /\
  UseInternalIP d' = UseInternalIP d /\
  UseInternalIPOnly d' = UseInternalIPOnly d /\
  Scopes d' = Scopes d /\
  Tags d' = Tags d /\
  OpenPorts d' = OpenPorts d /\
  ExternalFirewallRulePrefix d' = ExternalFirewallRulePrefix d /\
  InternalFirewallRulePrefix d' = InternalFirewallRulePrefix d /\
  Labels d' = Labels d.

(** The receiver after [SetConfigFromFlags] succeeded in use-existing
    mode: project, auth, zone, the mode, user name, port and user data
    assigned, then the base driver's swarm settings. *)
Definition configured_for_existing {cloud : Cloud}
    (flags : drivers.DriverOptions) (d : Driver) : Driver :=
  let d1 :=
    set_Userdata (drivers.String flags "google-userdata")
      (set_UseExisting true
         (set_Zone (drivers.String flags "google-zone")
            (set_Auth (drivers.String flags "google-auth-encoded-json")
               (set_Project (drivers.String flags "google-project") d)))) in
  set_BaseDriver
    (SetSwarmConfigFromFlags
       (drivers.set_SSHPort 22
          (drivers.set_SSHUser (drivers.String flags "google-username") (BaseDriver d)))
       flags)
    d1.

(** An error a deletion does not tolerate: non-nil and not a not-found. *)
Definition fatal {cloud : Cloud} (err : option error) : bool :=
  match err with
  | Some _ => negb (isNotFound err)
  | None => false
  end.

(** The errors [Remove] gathers from its firewall steps, read off the
    trace: a failed rule lookup unless it is a not-found, and any failed
    clean-up. *)
Definition collected {cloud : Cloud} (t : list Event) : list error :=
  flat_map
    (fun ev : Event =>
       match ev with
       | (call_externalFirewallRule, Some e)
       | (call_internalFirewallRule, Some e) =>
         if isNotFound (Some e) then [] else [e]
       | (call_CleanUpFirewallRule _, Some e) => [e]
       | _ => []
       end) t.

(** One firewall step of [Remove]: look the rule up; on a not-found there
    is nothing to do, on another lookup failure nothing more is done;
    a rule that was returned without error is cleaned up under the label
    key of its kind.  The events of the step and the world it leaves. *)
Definition firewall_step {cloud : Cloud} (lookup_call : Call)
    (lookup : World -> (option Firewall * option error) * World)
    (c : ComputeUtil) (labelKey : string) (w : World) : list Event * World :=
  let '((rule, err), w') := lookup w in
  if isNotFound err then ([(lookup_call, err)], w')
  else
    match err with
    | Some _ => ([(lookup_call, err)], w')
    | None =>
      let (e, w'') := CleanUpFirewallRule_ c rule labelKey w' in
      ([(lookup_call, None); (call_CleanUpFirewallRule labelKey, e)], w'')
    end.

Definition is_call_deleteInstance (c : Call) : bool :=
  match c with call_deleteInstance => true | _ => false end.

(** ** State inference *)

Definition present {A} (o : option A) : bool :=
  match o with Some _ => true | None => false end.

(** [GetState]'s test on the probe error: its text contains "not found". *)
Definition says_not_found {cloud : Cloud} (err : option error) : bool :=
  match err with
  | Some e => strings.Contains (Error e) "not found"
  | None => false
  end.

(** What the probes report: the instance object, whether the instance
    probe's error is an explicit not-found, whether the disk probe found a
    disk. *)
Record Probe : Type := mkProbe {
  instanceObject : option Instance;
  explicitNotFound : bool;
  diskPresent : bool
}.

Definition status_in (names : list string) (p : Probe) : bool :=
  match instanceObject p with
  | Some i => existsb (String.eqb (Status i)) names
  | None => false
  end.

Definition instance_absent (p : Probe) : bool := negb (present (instanceObject p)).

(** The decision table of the specification, rows in its order. *)
Definition StateInference_table : list ((Probe -> bool) * state.State) :=
  [ (fun p => explicitNotFound p && instance_absent p, state.NotFound);
    (fun p => instance_absent p && negb (explicitNotFound p) && negb (diskPresent p),
       state.None);
    (fun p => instance_absent p && diskPresent p, state.Stopped);
    (status_in ["PROVISIONING"; "STAGING"], state.Starting);
    (status_in ["RUNNING"], state.Running);
    (status_in ["STOPPING"; "STOPPED"; "TERMINATED"], state.Stopped);
    (fun p => present (instanceObject p), state.None) ].

(** First match wins. *)
Fixpoint first_match {A B} (rows : list ((A -> bool) * B)) (a : A) : option B :=
  match rows with
  | [] => None
  | (test, v) :: rest => if test a then Some v else first_match rest a
  end.

Definition StateInference (p : Probe) : option state.State :=
  first_match StateInference_table p.

(** The calls [Start] may issue. *)
Definition is_Start_call (c : Call) : bool :=
  match c with
  | call_newComputeUtil | call_instance | call_createInstance | call_startInstance
  | call_ip => true
  | _ => false
  end.

(** The error of [Create]'s guard on the external prefix. *)
Definition missing_external_prefix : error :=
  fmt.Errorf
    "the 'google-external-firewall-rule-prefix' flag must be provided when opening ports publicly"
    [].


Definition instance_already_exists (d : Driver) : error :=
  fmt.Errorf "instance %q already exists in zone %q"
    [argString (drivers.MachineName (BaseDriver d)); argString (Zone d)].

(** ** The rest of the driver file *)

(** [net.JoinHostPort]: a host with a colon in it is taken for an IPv6
    literal and bracketed. *)
Module net.
Fixpoint hasByte (c : Ascii.ascii) (s : string) : bool :=
  match s with
  | EmptyString => false
  | String c' s' => Ascii.eqb c' c || hasByte c s'
  end.

Definition JoinHostPort (host port : string) : string :=
  if hasByte ":"%char host then ("[" ++ host ++ "]:" ++ port)%string
  else (host ++ ":" ++ port)%string.
End net.

(** The flag declarations of the [mcnflag] package; a field left out of a
    literal has Go's zero value. *)
Module mcnflag.
Inductive Flag : Type :=
| StringFlag (Name Usage EnvVar Value : string)
| IntFlag (Name Usage EnvVar : string) (Value : Z)
| BoolFlag (Name Usage EnvVar : string)
| StringSliceFlag (Name Usage EnvVar : string) (Value : list string).

Definition Name (f : Flag) : string :=
  match f with
  | StringFlag n _ _ _ | IntFlag n _ _ _ | BoolFlag n _ _ | StringSliceFlag n _ _ _ => n
  end.
End mcnflag.

(** [GetCreateFlags]. *)
Definition GetCreateFlags : list mcnflag.Flag :=
  [ mcnflag.StringFlag "google-zone" "GCE Zone" "GOOGLE_ZONE" defaultZone;
    mcnflag.StringFlag "google-machine-type" "GCE Machine Type" "GOOGLE_MACHINE_TYPE"
      defaultMachineType;
    mcnflag.StringFlag "google-machine-image" "GCE Machine Image Absolute URL"
      "GOOGLE_MACHINE_IMAGE" defaultImageName;
    mcnflag.StringFlag "google-username" "GCE User Name" "GOOGLE_USERNAME" defaultUser;
    mcnflag.StringFlag "google-auth-encoded-json" "Base64 encoded GCE auth json"
      "GOOGLE_AUTH_ENCODED_JSON" "";
    mcnflag.StringFlag "google-project" "GCE Project" "GOOGLE_PROJECT" "";
    mcnflag.StringFlag "google-scopes" "GCE Scopes (comma-separated if multiple scopes)"
      "GOOGLE_SCOPES" defaultScopes;
    mcnflag.IntFlag "google-disk-size" "GCE Instance Disk Size (in GB)" "GOOGLE_DISK_SIZE"
      defaultDiskSize;
    mcnflag.StringFlag "google-disk-type" "GCE Instance Disk type" "GOOGLE_DISK_TYPE"
      defaultDiskType;
    mcnflag.StringFlag "google-network" "Specify network in which to provision vm"
      "GOOGLE_NETWORK" defaultNetwork;
    mcnflag.StringFlag "google-subnetwork" "Specify subnetwork in which to provision vm"
      "GOOGLE_SUBNETWORK" defaultSubnetwork;
    mcnflag.StringFlag "google-address" "GCE Instance External IP" "GOOGLE_ADDRESS" "";
    mcnflag.BoolFlag "google-preemptible" "GCE Instance Preemptibility" "GOOGLE_PREEMPTIBLE";
    mcnflag.StringFlag "google-tags" "GCE Instance Tags (comma-separated)" "GOOGLE_TAGS" "";
    mcnflag.BoolFlag "google-use-internal-ip"
      "Use internal GCE Instance IP rather than public one" "GOOGLE_USE_INTERNAL_IP";
    mcnflag.BoolFlag "google-use-internal-ip-only"
      "Configure GCE instance to not have an external IP address"
      "GOOGLE_USE_INTERNAL_IP_ONLY";
    mcnflag.BoolFlag "google-use-existing" "Don't create a new VM, use an existing one"
      "GOOGLE_USE_EXISTING";
    mcnflag.StringSliceFlag "google-open-port"
      "Make the specified port number accessible from the Internet, e.g, 8080/tcp"
      "GOOGLE_OPEN_PORT" [];
    mcnflag.StringFlag "google-external-firewall-rule-prefix"
      "A prefix to be added to the fire wall rule created when opening ports publicly to ensure uniqueness"
      "GOOGLE_EXTERNAL_FIREWALL_RULE_PREFIX" "";
    mcnflag.StringFlag "google-internal-firewall-rule-prefix"
      "A prefix to be added to the firewall rule created when exposing ports internally to ensure uniqueness"
      "GOOGLE_INTERNAL_FIREWALL_RULE_PREFIX" "";
    mcnflag.StringFlag "google-userdata" "A user-data file to be passed to cloud-init"
      "GOOGLE_USERDATA" "";
    mcnflag.StringFlag "google-vm-labels" "labels to add onto the created virtual machine"
      "GOOGLE_VM_LABELS" "" ].

(** [DriverName]. *)
Definition DriverName : string := "google".

(** [GetSSHUsername]. *)
Definition GetSSHUsername {cloud : Cloud} : M string :=
  d <- this ;;
  (if String.eqb (drivers.SSHUser (BaseDriver d)) "" then
     assign (fun d => set_BaseDriver (drivers.set_SSHUser "docker-user" (BaseDriver d)) d)
   else ret tt) ;;
  d <- this ;;
  ret (drivers.SSHUser (BaseDriver d)).

(** [GetURL]. *)
Definition GetURL {cloud : Cloud} : M (string * option error) :=
  '(addr, err) <- GetIP ;;
  match err with
  | Some err => ret ("", Some err)
  | None => ret (fmt.Sprintf "tcp://%s" (net.JoinHostPort addr "2376"), None)
  end.

(** *** Vocabulary *)

(** The value of a flag: what a reader returns for it, at its declared
    type, and what its declaration gives as the default. *)
Inductive FlagValue : Type :=
| StringValue (s : string)
| IntValue (n : Z)
| BoolValue (b : bool)
| StringSliceValue (l : list string).

Definition read (flags : drivers.DriverOptions) (f : mcnflag.Flag) : FlagValue :=
  match f with
  | mcnflag.StringFlag n _ _ _ => StringValue (drivers.String flags n)
  | mcnflag.IntFlag n _ _ _ => IntValue (drivers.Int flags n)
  | mcnflag.BoolFlag n _ _ => BoolValue (drivers.Bool flags n)
  | mcnflag.StringSliceFlag n _ _ _ => StringSliceValue (drivers.StringSlice flags n)
  end.

Definition default (f : mcnflag.Flag) : FlagValue :=
  match f with
  | mcnflag.StringFlag _ _ _ v => StringValue v
  | mcnflag.IntFlag _ _ _ v => IntValue v
  | mcnflag.BoolFlag _ _ _ => BoolValue false
  | mcnflag.StringSliceFlag _ _ _ v => StringSliceValue v
  end.

(** Two flag readers agree on every declared flag, read at its declared
    type. *)
Definition agree_on_declared (f1 f2 : drivers.DriverOptions) : Prop :=
  forall f, In f GetCreateFlags -> read f1 f = read f2 f.

(** A flag reader that returns, for every declared flag but [except], the
    declared default. *)
Definition carries_defaults (flags : drivers.DriverOptions) (except : string) : Prop :=
  forall f, In f GetCreateFlags -> mcnflag.Name f <> except -> read flags f = default f.

(** The calls [Create] may issue. *)
Definition is_Create_call (c : Call) : bool :=
  match c with
  | call_GenerateSSHKey | call_newComputeUtil
  | call_openPublicFirewallPorts | call_openInternalFirewallPorts
  | call_configureInstance | call_createInstance => true
  | _ => false
  end.

(** The calls [Remove] may issue. *)
Definition is_Remove_call (c : Call) : bool :=
  match c with
  | call_newComputeUtil | call_deleteInstance | call_deleteDisk
  | call_externalFirewallRule | call_internalFirewallRule
  | call_CleanUpFirewallRule _ => true
  | _ => false
  end.

Definition is_call_CleanUpFirewallRule (c : Call) : bool :=
  match c with call_CleanUpFirewallRule _ => true | _ => false end.

Definition is_firewall_call (c : Call) : bool :=
  match c with
  | call_externalFirewallRule | call_internalFirewallRule
  | call_CleanUpFirewallRule _
  | call_openPublicFirewallPorts | call_openInternalFirewallPorts => true
  | _ => false
  end.

(** The calls [PreCreateCheck] may issue. *)
Definition is_PreCreateCheck_call (c : Call) : bool :=
  match c with
  | call_newComputeUtil | call_Projects_Get | call_instance | call_ReadFile => true
  | _ => false
  end.

(** The error of [SetConfigFromFlags] on a missing project. *)
Definition missing_project : error :=
  errors.New "no Google Cloud Project name specified (--google-project)".

(** The API prefix [SetConfigFromFlags] strips from the image. *)
Definition image_api_prefix : string :=
  "https://www.googleapis.com/compute/v1/projects/".

(** *** More test inputs *)

(** The declaration of a flag, by name. *)
Definition declared (name : string) : option mcnflag.Flag :=
  find (fun f => String.eqb (mcnflag.Name f) name) GetCreateFlags.

(** The flag reader of a command line that gives the project and nothing
    else: every other flag reads as its declared default. *)
Definition default_options (project : string) : drivers.DriverOptions :=
  {| drivers.String := fun k =>
       if String.eqb k "google-project" then project
       else match declared k with
            | Some (mcnflag.StringFlag _ _ _ v) => v
            | _ => ""
            end;
     drivers.StringSlice := fun k =>
       match declared k with
       | Some (mcnflag.StringSliceFlag _ _ _ v) => v
       | _ => []
       end;
     drivers.Int := fun k =>
       match declared k with
       | Some (mcnflag.IntFlag _ _ _ v) => v
       | _ => 0%Z
       end;
     drivers.Bool := fun _ => false |}.

(** A flag reader that also knows a flag of another driver. *)
Definition with_foreign_flag (flags : drivers.DriverOptions) : drivers.DriverOptions :=
  {| drivers.String := fun k =>
       if String.eqb k "amazonec2-region" then "eu-west-1" else drivers.String flags k;
     drivers.StringSlice := drivers.StringSlice flags;
     drivers.Int := drivers.Int flags;
     drivers.Bool := drivers.Bool flags |}.

Definition is_call_newComputeUtil (c : Call) : bool :=
  match c with call_newComputeUtil => true | _ => false end.

Definition is_call_instance (c : Call) : bool :=
  match c with call_instance => true | _ => false end.

Definition is_call_Projects_Get (c : Call) : bool :=
  match c with call_Projects_Get => true | _ => false end.

(** A provider on which a stopped instance keeps its address (a reserved
    address, or an internal one): the test double with another stop
    action. *)
Module StaticAddress.

#[local] Instance cloud : Cloud := {|
  World := Mock.Remote;
  ComputeUtil := Driver;
  Disk := unit;
  Firewall := unit;
  Error := @Error Mock.cloud;
  isNotFound := @isNotFound Mock.cloud;
  GetSSHKeyPath := @GetSSHKeyPath Mock.cloud;
  SetSwarmConfigFromFlags := @SetSwarmConfigFromFlags Mock.cloud;
  ssh_GenerateSSHKey := @ssh_GenerateSSHKey Mock.cloud;
  os_ReadFile := @os_ReadFile Mock.cloud;
  newComputeUtil_ := @newComputeUtil_ Mock.cloud;
  internalFirewallRulePrefix := @internalFirewallRulePrefix Mock.cloud;
  externalFirewallRuleLabelKey := @externalFirewallRuleLabelKey Mock.cloud;
  internalFirewallRuleLabelKey := @internalFirewallRuleLabelKey Mock.cloud;
  Projects_Get_ := @Projects_Get_ Mock.cloud;
  instance_ := @instance_ Mock.cloud;
  disk_ := @disk_ Mock.cloud;
  ip_ := @ip_ Mock.cloud;
  externalFirewallRule_ := @externalFirewallRule_ Mock.cloud;
  internalFirewallRule_ := @internalFirewallRule_ Mock.cloud;
  openPublicFirewallPorts_ := @openPublicFirewallPorts_ Mock.cloud;
  openInternalFirewallPorts_ := @openInternalFirewallPorts_ Mock.cloud;
  CleanUpFirewallRule_ := @CleanUpFirewallRule_ Mock.cloud;
  configureInstance_ := @configureInstance_ Mock.cloud;
  createInstance_ := @createInstance_ Mock.cloud;
  startInstance_ := @startInstance_ Mock.cloud;
  stopInstance_ := fun _ => Mock.mutate call_stopInstance (Mock.set_status "TERMINATED");
  deleteInstance_ := @deleteInstance_ Mock.cloud;
  deleteDisk_ := @deleteDisk_ Mock.cloud
|}.

End StaticAddress.

(** ** Properties *)

(** Proof steps shared by the lifecycle lemmas: unfold a method down to
    the collaborators' calls, then split on what a call returned. *)
Ltac run_method :=
  unfold Remove, Restart, Kill, Start, Stop, GetState, GetSSHHostname, GetIP, Create,
    PreCreateCheck,
    GenerateSSHKey, ReadFile, newComputeUtil, Projects_Get, instance, disk, ip,
    externalFirewallRule, internalFirewallRule, openPublicFirewallPorts,
    openInternalFirewallPorts, CleanUpFirewallRule, configureInstance, createInstance,
    startInstance, stopInstance, deleteInstance, deleteDisk,
    bind, ret, this, assign, perform, errOfIt, errOfPair, errOfSum;
  cbn.

Ltac split_call :=
  match goal with
  | |- context [let (_, _) := ?x in _] =>
    lazymatch type of x with
    | (_ * World)%type => destruct x as [? ?]; cbn
    end
  | |- context [match ?x with (_, _) => _ end] =>
    lazymatch type of x with
    | (_ * option error)%type => destruct x as [? ?]; cbn
    end
  | |- context [isNotFound ?x] =>
    let N := fresh "N" in destruct (isNotFound x) eqn:N; cbn
  | |- context [match ?x with Some _ => _ | None => _ end] =>
    is_var x; destruct x; cbn
  | |- context [match ?x with inl _ => _ | inr _ => _ end] =>
    is_var x; destruct x; cbn
  end.


Section Config_properties.
Context {cloud : Cloud}.

Ltac run_config :=
  unfold SetConfigFromFlags, bind, ret, this, assign; cbn.

(** C9. With the use-existing flag set, [SetConfigFromFlags] leaves every
    creation-time field of the receiver as it was (machine type, image,
    disk size and type, address, network, subnetwork, preemptibility, the
    internal-IP flags, scopes, tags, open ports, both firewall prefixes,
    labels); when it succeeds the receiver is the old one with only
    project, auth, zone, use-existing, SSH user, SSH port and user data
    assigned (and the base driver's swarm settings applied), and no
    collaborator is called. *)
Theorem SetConfigFromFlags_use_existing_frame :
  forall (flags : drivers.DriverOptions) (d : Driver) (w : World),
    drivers.Bool flags "google-use-existing" = true ->
    let o := SetConfigFromFlags flags d w in
    creation_fields_unchanged d (driver o) /\
    (result o = None -> driver o = configured_for_existing flags d) /\
    trace o = [] /\ world o = w.
Proof.
  intros flags d w Huse. destruct d as [b].
  run_config.
  destruct (String.eqb (drivers.String flags "google-project") "") eqn:Hproj; cbn.
  - unfold creation_fields_unchanged; cbn.
    repeat split; try reflexivity. discriminate.
  - rewrite Huse; cbn.
    unfold creation_fields_unchanged, configured_for_existing; cbn.
    repeat split; reflexivity.
Qed.

(** C10. Without the use-existing flag, after a successful
    [SetConfigFromFlags] the field [UseInternalIP] is true exactly when
    one of the flags google-use-internal-ip and
    google-use-internal-ip-only is true; [UseInternalIPOnly] is the
    second flag, so it implies [UseInternalIP]. *)
Theorem SetConfigFromFlags_UseInternalIP :
  forall (flags : drivers.DriverOptions) (d : Driver) (w : World),
    drivers.Bool flags "google-use-existing" = false ->
    let o := SetConfigFromFlags flags d w in
    result o = None ->
    (UseInternalIP (driver o) = true <->
       drivers.Bool flags "google-use-internal-ip" = true \/
       drivers.Bool flags "google-use-internal-ip-only" = true) /\
    UseInternalIPOnly (driver o) = drivers.Bool flags "google-use-internal-ip-only" /\
    (UseInternalIPOnly (driver o) = true -> UseInternalIP (driver o) = true).
Proof.
  intros flags d w Huse. destruct d as [b].
  run_config.
  destruct (String.eqb (drivers.String flags "google-project") "") eqn:Hproj; cbn.
  - discriminate.
  - rewrite Huse; cbn. intros _.
    split; [apply orb_true_iff|].
    split; [reflexivity|].
    intros H; rewrite H; apply orb_true_r.
Qed.

End Config_properties.

Section Remove_properties.
Context {cloud : Cloud}.

(** The answers of the provider in one firewall step of [Remove]: the
    lookup, whether its error is a not-found, and the clean-up if it is
    reached. *)
Ltac firewall_answers lookup :=
  match goal with
  | |- context [lookup ?c' ?w'] =>
    let r := fresh "rule" in let e := fresh "err" in let w := fresh "w" in
    let N := fresh "N" in
    destruct (lookup c' w') as [[r e] w]; cbn;
    destruct (isNotFound e) eqn:N; cbn;
    [destruct e as [e|]; cbn; rewrite ?N; cbn
    |destruct e as [e|]; cbn; rewrite ?N; cbn;
      [|match goal with
        | |- context [CleanUpFirewallRule_ ?c'' ?r' ?k ?w''] =>
          let ce := fresh "ce" in let wc := fresh "w" in
          destruct (CleanUpFirewallRule_ c'' r' k w'') as [[ce|] wc]; cbn
        end]]
  end.

(** C1 (as amended). Once the client is built, [Remove] returns at once,
    with that error, when the instance delete fails with anything but a
    not-found, and likewise for the disk delete: no later step is
    attempted.  When both deletes succeeded or reported not-found, the
    run goes on with the external firewall step (when ports are open) and
    then the internal one (when the prefix is set), each a lookup
    followed, when the lookup returned a rule without error, by the
    clean-up of that rule; the internal step starts from wherever the
    external one ended, whatever that one returned.  The result is
    [errors.Join] of the errors gathered from the two steps. *)
Theorem Remove_collects_firewall_errors_only :
  forall (d : Driver) (w : World) (c : ComputeUtil) (w1 : World),
    newComputeUtil_ d w = (inl c, w1) ->
    let r1 := deleteInstance_ c w1 in
    let r2 := deleteDisk_ c (snd r1) in
    let ext := match OpenPorts d with
               | [] => ([], snd r2)
               | _ :: _ =>
                 firewall_step call_externalFirewallRule (externalFirewallRule_ c) c
                   externalFirewallRuleLabelKey (snd r2)
               end in
    let int := if String.eqb (internalFirewallRulePrefix c) "" then ([], snd ext)
               else firewall_step call_internalFirewallRule (internalFirewallRule_ c) c
                      internalFirewallRuleLabelKey (snd ext) in
    let o := Remove d w in
    (fatal (fst r1) = true ->
       result o = fst r1 /\
       calls (trace o) = [call_newComputeUtil; call_deleteInstance]) /\
    (fatal (fst r1) = false -> fatal (fst r2) = true ->
       result o = fst r2 /\
       calls (trace o) = [call_newComputeUtil; call_deleteInstance; call_deleteDisk]) /\
    (fatal (fst r1) = false -> fatal (fst r2) = false ->
       firstn 3 (calls (trace o)) =
         [call_newComputeUtil; call_deleteInstance; call_deleteDisk] /\
       (OpenPorts d <> [] -> In call_externalFirewallRule (calls (trace o))) /\
       (internalFirewallRulePrefix c <> "" ->
          In call_internalFirewallRule (calls (trace o))) /\
       result o = errors.Join (collected (trace o)) /\
       trace o =
         [(call_newComputeUtil, None); (call_deleteInstance, fst r1);
          (call_deleteDisk, fst r2)] ++ fst ext ++ fst int /\
       world o = snd int /\
       (isNotFound None = false ->
        In (call_externalFirewallRule, None) (trace o) ->
        exists e,
          In (call_CleanUpFirewallRule externalFirewallRuleLabelKey, e) (trace o)) /\
       (isNotFound None = false ->
        In (call_internalFirewallRule, None) (trace o) ->
        exists e,
          In (call_CleanUpFirewallRule internalFirewallRuleLabelKey, e) (trace o))).
Proof.
  intros d w c w1 Hc.
  run_method. rewrite Hc; cbn. unfold fatal, collected, firewall_step.
  (* the instance delete *)
  destruct (deleteInstance_ c w1) as [e1 w2]; cbn.
  destruct (match e1 with
            | Some _ => negb (isNotFound e1)
            | None => false
            end) eqn:F1; cbn.
  { repeat split; intros; try discriminate; reflexivity. }
  (* the disk delete *)
  destruct (deleteDisk_ c w2) as [e2 w3]; cbn.
  destruct (match e2 with
            | Some _ => negb (isNotFound e2)
            | None => false
            end) eqn:F2; cbn.
  { repeat split; intros; try discriminate; reflexivity. }
  do 2 (split; [discriminate|]). intros _ _.
  (* the external step, behind its guard *)
  destruct (OpenPorts d) as [|p ps]; cbn;
    [|firewall_answers (@externalFirewallRule_ cloud)].
  (* the internal step, behind its guard *)
  all: destruct (String.eqb (internalFirewallRulePrefix c) "") eqn:P; cbn;
    [apply String.eqb_eq in P|firewall_answers (@internalFirewallRule_ cloud)].
  all: repeat match goal with
              | N : isNotFound _ = _ |- _ => rewrite N; cbn
              end.
  all: repeat split; intros; try discriminate; try congruence; try reflexivity.
  all: try solve [cbn; tauto].
  all: try solve [cbn; eauto 10].
  all: cbn in *;
       repeat match goal with
              | H : _ \/ _ |- _ => destruct H
              end;
       try contradiction; try discriminate; congruence.
Qed.

End Remove_properties.

(** C1, witness: both deletes work, the external rule lookup fails with
    a 503, and the internal rule is still looked up and cleaned up; the
    503 comes back joined. *)
Lemma Remove_collects_firewall_errors_only_witness :
  let w := Mock.failing
             (fun c => match c with call_externalFirewallRule => true | _ => false end)
             Mock.unavailable Mock.running in
  let o := @Remove Mock.cloud Mock.host w in
  @newComputeUtil_ Mock.cloud Mock.host w = (inl Mock.host, w) /\
  result o = Some (joinError [Mock.unavailable]) /\
  In call_internalFirewallRule (calls (trace o)) /\
  Mock.remoteInternalRule (world o) = false.
Proof.
  intros w o.
  pose proof (@Remove_collects_firewall_errors_only Mock.cloud Mock.host w Mock.host w
                eq_refl) as [_ [_ H]].
  destruct (H eq_refl eq_refl) as [_ [_ [Hint [Hres _]]]].
  split; [reflexivity|].
  split; [exact (eq_trans Hres eq_refl)|].
  split; [apply Hint; discriminate|].
  reflexivity.
Defined.

(** C1, counterexample: the instance delete fails with a 503, which is not
    a not-found; [Remove] returns that error at once and the disk delete
    is not issued, so the disk is still there. *)
Lemma Remove_instance_failure_skips_disk :
  let w := Mock.failing is_call_deleteInstance Mock.unavailable Mock.running in
  let o := @Remove Mock.cloud Mock.host w in
  @isNotFound Mock.cloud (Some Mock.unavailable) = false /\
  result o = Some Mock.unavailable /\
  calls (trace o) = [call_newComputeUtil; call_deleteInstance] /\
  existsb is_call_deleteDisk (calls (trace o)) = false /\
  Mock.remoteDisk (world o) = true.
Proof.
  vm_compute. repeat split.
Qed.

Section GetState_properties.
Context {cloud : Cloud}.

(** C2. Once the client is built, [GetState] returns the state the
    first-match decision table gives for (instance object, explicit
    not-found error, disk present), with a nil error: a not-found probe
    becomes the value NotFound.  The receiver is untouched and no provider
    mutation is issued. *)
Theorem GetState_follows_table :
  forall (d : Driver) (w : World) (c : ComputeUtil) (w1 : World)
         (inst : option Instance) (err : option error) (w2 : World),
    newComputeUtil_ d w = (inl c, w1) ->
    instance_ c w1 = ((inst, err), w2) ->
    let o := GetState d w in
    let p := {| instanceObject := inst;
                explicitNotFound := says_not_found err;
                diskPresent := present (fst (fst (disk_ c w2))) |} in
    StateInference p = Some (fst (result o)) /\
    snd (result o) = None /\
    driver o = d /\
    existsb is_provider_mutation (calls (trace o)) = false.
Proof.
  intros d w c w1 inst err w2 Hc Hi.
  run_method. rewrite Hc; cbn. rewrite Hi; cbn.
  unfold StateInference, StateInference_table, status_in, instance_absent, says_not_found.
  destruct inst as [i|]; cbn.
  - destruct (String.eqb (Status i) "PROVISIONING"),
             (String.eqb (Status i) "STAGING"),
             (String.eqb (Status i) "RUNNING"),
             (String.eqb (Status i) "STOPPING"),
             (String.eqb (Status i) "STOPPED"),
             (String.eqb (Status i) "TERMINATED"); cbn;
      rewrite ?andb_false_r; cbn; repeat split; reflexivity.
  - destruct err as [e|]; cbn;
      [destruct (strings.Contains (Error e) "not found"); cbn|].
    all: try (repeat split; reflexivity).
    all: destruct (disk_ c w2) as [[dk e'] w3]; cbn.
    all: destruct dk; cbn; repeat split; reflexivity.
Qed.

End GetState_properties.

(** C2, witness: nothing exists remotely, the probe's 404 text says
    "not found", and the state is NotFound. *)
Lemma GetState_follows_table_witness :
  let o := @GetState Mock.cloud Mock.host Mock.empty in
  @newComputeUtil_ Mock.cloud Mock.host Mock.empty = (inl Mock.host, Mock.empty) /\
  @instance_ Mock.cloud Mock.host Mock.empty = ((None, Some Mock.notFound), Mock.empty) /\
  StateInference (mkProbe None true false) = Some (fst (result o)) /\
  result o = (state.NotFound, None).
Proof.
  intros o.
  pose proof (@GetState_follows_table Mock.cloud Mock.host Mock.empty Mock.host Mock.empty
                None (Some Mock.notFound) Mock.empty eq_refl eq_refl) as [H _].
  split; [reflexivity|]. split; [reflexivity|].
  split; [exact H | reflexivity].
Defined.

(** The rows of the table on the test double. *)
Example GetState_rows :
  let st w := result (@GetState Mock.cloud Mock.host w) in
  let status s := Mock.with_instance (Some (mkInstance s)) Mock.running in
  let lost := Mock.failing (fun c => match c with call_instance => true | _ => false end)
                Mock.unavailable in
  st Mock.empty = (state.NotFound, None) /\
  st (lost Mock.empty) = (state.None, None) /\
  st (lost (Mock.with_disk true Mock.empty)) = (state.Stopped, None) /\
  st (status "PROVISIONING") = (state.Starting, None) /\
  st (status "STAGING") = (state.Starting, None) /\
  st (status "RUNNING") = (state.Running, None) /\
  st (status "STOPPING") = (state.Stopped, None) /\
  st (status "STOPPED") = (state.Stopped, None) /\
  st (status "TERMINATED") = (state.Stopped, None) /\
  st (status "SUSPENDED") = (state.None, None).
Proof.
  vm_compute. repeat split.
Qed.

Section Create_properties.
Context {cloud : Cloud}.

(** C3. With a non-empty open-port list and an empty external prefix,
    [Create] returns an error and its trace holds no provider mutation: no
    firewall rule is ensured, no instance created or reconfigured.  When
    the key is generated and the client is built, the error is the guard's
    own and these two calls are the whole trace. *)
Theorem Create_requires_external_prefix :
  forall (d : Driver) (w : World),
    OpenPorts d <> [] ->
    ExternalFirewallRulePrefix d = "" ->
    let o := Create d w in
    (exists e, result o = Some e) /\
    existsb is_provider_mutation (calls (trace o)) = false /\
    driver o = d /\
    (forall w0 c w1,
        ssh_GenerateSSHKey (GetSSHKeyPath (BaseDriver d)) w = (None, w0) ->
        newComputeUtil_ d w0 = (inl c, w1) ->
        result o = Some missing_external_prefix /\
        calls (trace o) = [call_GenerateSSHKey; call_newComputeUtil] /\
        world o = w1).
Proof.
  intros d w Hports Hprefix.
  run_method.
  destruct (OpenPorts d) as [|p ps]; [congruence|]. rewrite Hprefix; cbn.
  destruct (ssh_GenerateSSHKey (GetSSHKeyPath (BaseDriver d)) w) as [[e|] w0]; cbn.
  - split; [eauto|]. do 2 (split; [reflexivity|]).
    intros w0' c w1 Hs Hc. discriminate Hs.
  - destruct (newComputeUtil_ d w0) as [[c|e] w1] eqn:Hc; cbn.
    + split; [eauto|]. do 2 (split; [reflexivity|]).
      intros w0' c' w1' Hs Hc'. inversion Hs; subst w0'.
      rewrite Hc in Hc'. inversion Hc'; subst. repeat split.
    + split; [eauto|]. do 2 (split; [reflexivity|]).
      intros w0' c' w1' Hs Hc'. inversion Hs; subst w0'.
      rewrite Hc in Hc'. discriminate Hc'.
Qed.

(** C6. A run of [Create] that returns nil has issued the instance
    mutation (create or configure).  In every run that issues it, it is
    the last call and the only instance mutation, its error is what
    [Create] returns, and before it the external rule was ensured
    successfully when ports are open, the internal rule when its prefix is
    set. *)
Theorem Create_firewall_before_instance :
  forall (d : Driver) (w : World),
    let o := Create d w in
    (result o = None -> existsb is_instance_mutation (calls (trace o)) = true) /\
    (existsb is_instance_mutation (calls (trace o)) = true ->
     exists (pre : list Event) (ev : Event),
       trace o = pre ++ [ev] /\
       is_instance_mutation (fst ev) = true /\
       snd ev = result o /\
       existsb is_instance_mutation (calls pre) = false /\
       (OpenPorts d <> [] -> In (call_openPublicFirewallPorts, None) pre) /\
       (InternalFirewallRulePrefix d <> "" ->
          In (call_openInternalFirewallPorts, None) pre)).
Proof.
  intros d w.
  run_method.
  (* key, client *)
  destruct (ssh_GenerateSSHKey (GetSSHKeyPath (BaseDriver d)) w) as [[e|] w0]; cbn;
    [split; intro H; discriminate H|].
  destruct (newComputeUtil_ d w0) as [[c|e] w1]; cbn;
    [|split; intro H; discriminate H].
  (* external rule *)
  destruct (OpenPorts d) as [|p ps]; cbn;
    [|destruct (String.eqb (ExternalFirewallRulePrefix d) ""); cbn;
      [split; intro H; discriminate H|];
      destruct (openPublicFirewallPorts_ c d w1) as [[e|] w2]; cbn;
      [split; intro H; discriminate H|]].
  (* internal rule *)
  all: destruct (String.eqb (InternalFirewallRulePrefix d) "") eqn:P; cbn;
    [apply String.eqb_eq in P|].
  all: repeat split_call.
  all: try (split; intro H; discriminate H).
  (* the instance *)
  all: destruct (UseExisting d); cbn; repeat split_call.
  all: split; [intros _; reflexivity|intros _].
  all: match goal with
       | |- exists pre ev, [?a; ?b; ?c; ?x; ?y] = _ /\ _ => exists [a; b; c; x], y
       | |- exists pre ev, [?a; ?b; ?c; ?x] = _ /\ _ => exists [a; b; c], x
       | |- exists pre ev, [?a; ?b; ?c] = _ /\ _ => exists [a; b], c
       end.
  all: cbn; repeat split; intros; try congruence; tauto.
Qed.

End Create_properties.

(** C3, witness: ports to open, no external prefix, nothing remote. *)
Lemma Create_requires_external_prefix_witness :
  let d := set_ExternalFirewallRulePrefix "" Mock.host in
  let o := @Create Mock.cloud d Mock.empty in
  OpenPorts d <> [] /\
  ExternalFirewallRulePrefix d = "" /\
  result o = Some missing_external_prefix /\
  existsb is_provider_mutation (calls (trace o)) = false /\
  world o = Mock.empty.
Proof.
  intros d o.
  assert (Hp : OpenPorts d <> []) by discriminate.
  destruct (@Create_requires_external_prefix Mock.cloud d Mock.empty Hp eq_refl)
    as [_ [Hmut [_ Hguard]]].
  destruct (Hguard Mock.empty d Mock.empty eq_refl eq_refl) as [Hres [_ Hw]].
  repeat split; assumption.
Defined.

(** C6, witness: a fresh host with ports and both prefixes. *)
Lemma Create_firewall_before_instance_witness :
  let o := @Create Mock.cloud Mock.host Mock.empty in
  result o = None /\
  exists (pre : list Event) (ev : Event),
    trace o = pre ++ [ev] /\
    is_instance_mutation (fst ev) = true /\
    snd ev = None /\
    existsb is_instance_mutation (calls pre) = false /\
    (OpenPorts Mock.host <> [] -> In (call_openPublicFirewallPorts, None) pre) /\
    (InternalFirewallRulePrefix Mock.host <> "" ->
       In (call_openInternalFirewallPorts, None) pre).
Proof.
  intros o. split; [reflexivity|].
  destruct (@Create_firewall_before_instance Mock.cloud Mock.host Mock.empty)
    as [Hissued Horder].
  exact (Horder (Hissued eq_refl)).
Defined.

(** A provider that refuses the external rule: the instance is never
    created. *)
Example Create_stops_at_failed_firewall :
  let w := Mock.failing is_call_openPublicFirewallPorts Mock.unavailable Mock.empty in
  let o := @Create Mock.cloud Mock.host w in
  result o = Some Mock.unavailable /\
  calls (trace o) =
    [call_GenerateSSHKey; call_newComputeUtil; call_openPublicFirewallPorts] /\
  Mock.remoteInstance (world o) = None.
Proof.
  vm_compute. repeat split.
Qed.

Section PreCreateCheck_properties.
Context {cloud : Cloud}.


End PreCreateCheck_properties.



(** The other direction on the test double: a new host whose name is
    taken. *)
Example PreCreateCheck_already_exists :
  let o := @PreCreateCheck Mock.cloud Mock.host Mock.running in
  result o = Some (instance_already_exists Mock.host) /\
  calls (trace o) = [call_newComputeUtil; call_Projects_Get; call_instance] /\
  world o = Mock.running.
Proof.
  vm_compute. repeat split.
Qed.

Section Start_Stop_properties.
Context {cloud : Cloud}.

Lemma GetIP_keeps_receiver :
  forall (d : Driver) (w : World), driver (GetIP d w) = d.
Proof.
  intros d w. run_method.
  destruct (newComputeUtil_ d w) as [[c|e] w1]; cbn; [|reflexivity].
  destruct (ip_ c w1) as [[addr [e|]] w2]; cbn; [reflexivity|].
  destruct (String.eqb addr ""); reflexivity.
Qed.

Lemma GetIP_calls :
  forall (d : Driver) (w : World),
    forallb is_Start_call (calls (trace (GetIP d w))) = true.
Proof.
  intros d w. run_method.
  destruct (newComputeUtil_ d w) as [[c|e] w1]; cbn; [|reflexivity].
  destruct (ip_ c w1) as [[addr [e|]] w2]; cbn; [reflexivity|].
  destruct (String.eqb addr ""); reflexivity.
Qed.

(** The outcome of a bind, by cases on its first part. *)
Lemma bind_outcome :
  forall {A B} (m : M A) (k : A -> M B) (d : Driver) (w : World),
    let o1 := m d w in
    let o2 := k (result o1) (driver o1) (world o1) in
    bind m k d w = mkOutcome (result o2) (driver o2) (world o2) (trace o1 ++ trace o2).
Proof.
  intros A B m k d w. unfold bind.
  destruct (m d w) as [a d1 w1 t1]; cbn.
  destruct (k a d1 w1) as [b d2 w2 t2]; reflexivity.
Qed.

(** C4 (as amended). Once the client is built, [Start] probes the
    instance.  A probe error other than a not-found is returned as it is
    and nothing else is called.  Otherwise the third call is the
    provider's create-instance action when there is no instance object
    and the start action when there is one; if it fails [Start] returns
    its error; if it succeeds [Start] runs [GetIP], stores the address in
    the receiver's [IPAddress] and returns [GetIP]'s error.  No run of
    [Start] generates an SSH key, touches a firewall rule or reconfigures
    an instance. *)
Theorem Start_probe_then_create_instance_or_start :
  forall (d : Driver) (w : World) (c : ComputeUtil) (w1 : World)
         (inst : option Instance) (err : option error) (w2 : World),
    newComputeUtil_ d w = (inl c, w1) ->
    instance_ c w1 = ((inst, err), w2) ->
    let o := Start d w in
    let act := match inst with
               | None => createInstance_ c d w2
               | Some _ => startInstance_ c w2
               end in
    let act_call := match inst with
                    | None => call_createInstance
                    | Some _ => call_startInstance
                    end in
    (fatal err = true ->
       result o = err /\
       calls (trace o) = [call_newComputeUtil; call_instance] /\
       driver o = d) /\
    (fatal err = false ->
       firstn 3 (trace o) =
         [(call_newComputeUtil, None); (call_instance, err); (act_call, fst act)] /\
       (fst act <> None ->
          result o = fst act /\ length (trace o) = 3%nat /\ driver o = d) /\
       (fst act = None ->
          let g := GetIP d (snd act) in
          result o = snd (result g) /\
          driver o =
            set_BaseDriver (drivers.set_IPAddress (fst (result g)) (BaseDriver d)) d /\
          trace o = firstn 3 (trace o) ++ trace g /\
          world o = world g)) /\
    forallb is_Start_call (calls (trace o)) = true.
Proof.
  intros d w c w1 inst err w2 Hc Hi.
  unfold Start, newComputeUtil, instance, createInstance, startInstance,
    bind, ret, this, assign, perform, errOfIt, errOfPair, errOfSum, fatal.
  cbn -[GetIP]. rewrite Hc; cbn -[GetIP]. rewrite Hi; cbn -[GetIP].
  destruct err as [e|]; cbn -[GetIP];
    [destruct (isNotFound (Some e)) eqn:N; cbn -[GetIP]|].
  all: destruct inst as [i|]; cbn -[GetIP].
  (* the probe failed for good *)
  all: try solve [repeat split; intros; try reflexivity; discriminate].
  (* the create or start action *)
  all: match goal with
       | |- context [let (_, _) := ?x in _] =>
         lazymatch type of x with
         | (option error * World)%type => destruct x as [[e'|] w3]; cbn -[GetIP]
         end
       end.
  all: try solve [repeat split; intros; try reflexivity; try discriminate; congruence].
  (* the address *)
  all: match goal with
       | |- context [GetIP ?d0 ?w0] =>
         pose proof (GetIP_keeps_receiver d0 w0) as Hk;
         pose proof (GetIP_calls d0 w0) as Hcalls;
         destruct (GetIP d0 w0) as [[addr e''] d' w4 t]
       end.
  all: cbn in *; subst d'; rewrite ?app_nil_r.
  all: repeat split; intros; try reflexivity; try discriminate; try congruence.
  all: exact Hcalls.
Qed.

(** C7. [Restart] runs [Stop] first.  If [Stop] returns an error,
    [Restart] returns that error and is [Stop]'s run and nothing more:
    same trace (client construction and the stop action only), same
    receiver, same world.  If [Stop] succeeds, [Restart] is [Stop]'s run
    followed by [Start]'s run from where [Stop] ended. *)
Theorem Restart_stop_then_start :
  forall (d : Driver) (w : World),
    let s := Stop d w in
    let o := Restart d w in
    (forall e, result s = Some e ->
       result o = Some e /\ trace o = trace s /\
       driver o = driver s /\ world o = world s /\
       forallb is_Stop_call (calls (trace o)) = true) /\
    (result s = None ->
       let t := Start (driver s) (world s) in
       result o = result t /\ trace o = trace s ++ trace t /\
       driver o = driver t /\ world o = world t).
Proof.
  intros d w. cbv zeta.
  unfold Restart. rewrite bind_outcome. cbv zeta.
  assert (Hcalls : forallb is_Stop_call (calls (trace (Stop d w))) = true).
  { run_method.
    destruct (newComputeUtil_ d w) as [[c|e] w1]; cbn; [|reflexivity].
    destruct (stopInstance_ c w1) as [[e|] w2]; reflexivity. }
  destruct (Stop d w) as [[e|] d1 w1 t1]; cbn in *.
  - split; [|discriminate].
    intros e' He. inversion He; subst e'.
    rewrite app_nil_r. repeat split. exact Hcalls.
  - split; [discriminate|]. intros _. repeat split.
Qed.



End Start_Stop_properties.

(** C4, witness: the disk was kept, the instance is gone; [Start] issues
    the create-instance action and records the new address. *)
Lemma Start_probe_then_create_instance_or_start_witness :
  let w := Mock.with_disk true Mock.empty in
  let o := @Start Mock.cloud Mock.host w in
  @newComputeUtil_ Mock.cloud Mock.host w = (inl Mock.host, w) /\
  @instance_ Mock.cloud Mock.host w = ((None, Some Mock.notFound), w) /\
  firstn 3 (calls (trace o)) = [call_newComputeUtil; call_instance; call_createInstance] /\
  result o = None /\
  drivers.IPAddress (BaseDriver (driver o)) = "203.0.113.7" /\
  forallb is_Start_call (calls (trace o)) = true.
Proof.
  intros w o.
  destruct (@Start_probe_then_create_instance_or_start Mock.cloud Mock.host w Mock.host w
              None (Some Mock.notFound) w eq_refl eq_refl) as [_ [Hgo Hcalls]].
  destruct (Hgo eq_refl) as [_ [_ Hok]].
  destruct (Hok eq_refl) as [Hres [Hdrv _]].
  do 3 (split; [reflexivity|]).
  split; [exact (eq_trans Hres eq_refl)|].
  split; [|exact Hcalls].
  unfold o; rewrite Hdrv; reflexivity.
Defined.

(** C4, counterexample: no instance, the disk kept, ports to open.
    [Create] generates a key and ensures both firewall rules before it
    creates the instance; [Start] does neither, it only issues the
    create-instance action, and the external rule is still missing
    afterwards. *)
Lemma Start_is_not_full_Create :
  let w := Mock.with_disk true Mock.empty in
  let s := @Start Mock.cloud Mock.host w in
  let cr := @Create Mock.cloud Mock.host w in
  fst (fst (@instance_ Mock.cloud Mock.host w)) = None /\
  calls (trace cr) =
    [call_GenerateSSHKey; call_newComputeUtil; call_openPublicFirewallPorts;
     call_openInternalFirewallPorts; call_createInstance] /\
  calls (trace s) =
    [call_newComputeUtil; call_instance; call_createInstance; call_newComputeUtil;
     call_ip] /\
  existsb is_call_GenerateSSHKey (calls (trace s)) = false /\
  existsb is_call_openPublicFirewallPorts (calls (trace s)) = false /\
  Mock.remoteExternalRule (world cr) = true /\
  Mock.remoteExternalRule (world s) = false.
Proof.
  vm_compute. repeat split.
Qed.

(** C7, witness: nothing to stop, so the stop action reports a 404 and
    [Restart] ends there. *)
Lemma Restart_stop_then_start_witness :
  let s := @Stop Mock.cloud Mock.host Mock.empty in
  let o := @Restart Mock.cloud Mock.host Mock.empty in
  result s = Some Mock.notFound /\
  result o = Some Mock.notFound /\
  trace o = trace s /\
  calls (trace o) = [call_newComputeUtil; call_stopInstance].
Proof.
  intros s o.
  destruct (@Restart_stop_then_start Mock.cloud Mock.host Mock.empty) as [Hfail _].
  destruct (Hfail Mock.notFound eq_refl) as [Hres [Htr _]].
  split; [reflexivity|].
  split; [exact Hres|].
  split; [exact Htr | reflexivity].
Defined.

(** A restart that goes through on the test double. *)
Example Restart_running_host :
  let o := @Restart Mock.cloud Mock.host Mock.running in
  result o = None /\
  calls (trace o) =
    [call_newComputeUtil; call_stopInstance;
     call_newComputeUtil; call_instance; call_startInstance; call_newComputeUtil;
     call_ip] /\
  drivers.IPAddress (BaseDriver (driver o)) = "203.0.113.7".
Proof.
  vm_compute. repeat split.
Qed.



(** C9, witness: a new driver configured for an existing instance keeps
    its defaults. *)
Lemma SetConfigFromFlags_use_existing_frame_witness :
  let flags := Mock.flags "proj" true true true in
  let d := NewDriver "vm-1" "/var/lib/machine" in
  let o := @SetConfigFromFlags Mock.cloud flags d Mock.empty in
  drivers.Bool flags "google-use-existing" = true /\
  creation_fields_unchanged d (driver o) /\
  MachineType (driver o) = defaultMachineType /\
  OpenPorts (driver o) = [] /\
  UseInternalIP (driver o) = false /\
  Zone (driver o) = "europe-west1-b".
Proof.
  intros flags d o.
  destruct (@SetConfigFromFlags_use_existing_frame Mock.cloud flags d Mock.empty eq_refl)
    as [Hframe _].
  split; [reflexivity|].
  split; [exact Hframe|].
  repeat split.
Defined.

(** C10, witness: only the internal-IP-only flag is given. *)
Lemma SetConfigFromFlags_UseInternalIP_witness :
  let flags := Mock.flags "proj" false false true in
  let o := @SetConfigFromFlags Mock.cloud flags Mock.host Mock.empty in
  drivers.Bool flags "google-use-existing" = false /\
  result o = None /\
  UseInternalIP (driver o) = true /\
  UseInternalIPOnly (driver o) = true.
Proof.
  intros flags o.
  destruct (@SetConfigFromFlags_UseInternalIP Mock.cloud flags Mock.host Mock.empty
              eq_refl eq_refl) as [Hiff [Honly _]].
  split; [reflexivity|]. split; [reflexivity|].
  split; [apply Hiff; right; reflexivity | exact Honly].
Defined.

(** Creating anew applies the creation-time flags; the image URL loses its
    API prefix. *)
Example SetConfigFromFlags_new_host :
  let o := @SetConfigFromFlags Mock.cloud (Mock.flags "proj" false true false)
             (NewDriver "vm-1" "/var/lib/machine") Mock.empty in
  result o = None /\
  MachineType (driver o) = "e2-medium" /\
  MachineImage (driver o) = "debian-cloud/global/images/debian-12" /\
  DiskSize (driver o) = 50%Z /\
  UseInternalIP (driver o) = true /\
  UseInternalIPOnly (driver o) = false /\
  drivers.SSHPort (BaseDriver (driver o)) = 22%Z.
Proof.
  vm_compute. repeat split.
Qed.

(** ** Further properties: configuration *)

Section Flag_properties.
Context {cloud : Cloud}.

Ltac run_config :=
  unfold SetConfigFromFlags, bind, ret, this, assign; cbn.

(** What [strings.TrimPrefix] cut off can be put back. *)
Lemma TrimPrefix_restores :
  forall (p s : string),
    String.prefix p s = true -> (p ++ strings.TrimPrefix s p)%string = s.
Proof.
  intros p s H. unfold strings.TrimPrefix. rewrite H.
  revert s H. induction p as [|a p IH]; intros s H; cbn.
  - reflexivity.
  - destruct s as [|b s]; cbn in H; [discriminate|].
    destruct (Ascii.ascii_dec a b) as [->|]; [|discriminate].
    cbn. f_equal. apply IH, H.
Qed.

(** X1. Without a project name [SetConfigFromFlags] fails with the
    missing-project error whatever the other flags say, and the only
    thing it has done to the receiver is to set [Project] to the empty
    string: no other flag is applied. *)
Theorem SetConfigFromFlags_requires_project :
  forall (flags : drivers.DriverOptions) (d : Driver) (w : World),
    drivers.String flags "google-project" = "" ->
    let o := SetConfigFromFlags flags d w in
    result o = Some missing_project /\
    driver o = set_Project "" d /\
    trace o = [] /\ world o = w.
Proof.
  intros flags d w Hp. destruct d as [b].
  run_config. rewrite Hp; cbn. repeat split.
Qed.

(** X2. [SetConfigFromFlags] reads declared flags only, each at the type
    [GetCreateFlags] declares it with: two flag readers that agree on the
    declared flags (and on which the base driver's swarm settings agree)
    configure a driver in the same way. *)
Theorem SetConfigFromFlags_reads_declared_flags :
  forall (f1 f2 : drivers.DriverOptions),
    agree_on_declared f1 f2 ->
    (forall b, SetSwarmConfigFromFlags b f1 = SetSwarmConfigFromFlags b f2) ->
    forall (d : Driver) (w : World),
      SetConfigFromFlags f1 d w = SetConfigFromFlags f2 d w.
Proof.
  intros f1 f2 Hagree Hswarm d w.
  pose proof (proj2 (Forall_forall _ _) Hagree) as F. unfold GetCreateFlags in F.
  repeat (let E := fresh "E" in
          pose proof (Forall_inv F) as E; apply Forall_inv_tail in F;
          cbn in E; injection E as E).
  destruct d as [b].
  run_config.
  repeat match goal with
         | E : _ = _ |- _ => rewrite ?E; clear E
         end.
  destruct (String.eqb (drivers.String f2 "google-project") ""); cbn; [reflexivity|].
  destruct (drivers.Bool f2 "google-use-existing"); cbn; rewrite Hswarm; reflexivity.
Qed.

(** X3. The defaults [NewDriver] sets are the defaults [GetCreateFlags]
    declares: configuring a new driver from flags that carry the declared
    default of every flag but the project, and a project name, succeeds
    and changes nothing but [Project] and the base driver (SSH port 22,
    swarm settings). *)
Theorem SetConfigFromFlags_defaults_match_NewDriver :
  forall (flags : drivers.DriverOptions) (machineName storePath : string) (w : World),
    carries_defaults flags "google-project" ->
    drivers.String flags "google-project" <> "" ->
    let d := NewDriver machineName storePath in
    let o := SetConfigFromFlags flags d w in
    result o = None /\
    driver o =
      set_BaseDriver
        (SetSwarmConfigFromFlags (drivers.set_SSHPort 22 (BaseDriver d)) flags)
        (set_Project (drivers.String flags "google-project") d).
Proof.
  intros flags machineName storePath w Hdef Hproj.
  pose proof (proj2 (Forall_forall _ _) Hdef) as F. unfold GetCreateFlags in F.
  repeat (let E := fresh "E" in
          pose proof (Forall_inv F) as E; apply Forall_inv_tail in F;
          cbn in E;
          first [ specialize (E ltac:(discriminate)); injection E as E
                | clear E ]).
  run_config.
  destruct (String.eqb (drivers.String flags "google-project") "") eqn:P;
    [apply String.eqb_eq in P; contradiction|].
  cbn.
  repeat match goal with
         | E : _ = _ |- _ => rewrite ?E; clear E
         end.
  cbn. split; reflexivity.
Qed.

(** X4. When a new instance is to be created, a successful
    [SetConfigFromFlags] overwrites every configuration field of the
    driver itself: what the receiver held before, apart from its base
    driver, has no influence on the result. *)
Theorem SetConfigFromFlags_overwrites_configuration :
  forall (flags : drivers.DriverOptions) (d1 d2 : Driver) (w : World),
    BaseDriver d1 = BaseDriver d2 ->
    drivers.Bool flags "google-use-existing" = false ->
    drivers.String flags "google-project" <> "" ->
    SetConfigFromFlags flags d1 w = SetConfigFromFlags flags d2 w.
Proof.
  intros flags d1 d2 w Hb Huse Hproj.
  destruct d1 as [b1], d2 as [b2]. cbn in Hb. subst b2.
  run_config.
  destruct (String.eqb (drivers.String flags "google-project") "") eqn:P;
    [apply String.eqb_eq in P; contradiction|].
  cbn. rewrite Huse. cbn. reflexivity.
Qed.

(** X5. The machine image is stored without the compute API prefix: if
    the flag starts with the prefix, prefix and stored image make up the
    flag again; otherwise the stored image is the flag. *)
Theorem SetConfigFromFlags_machine_image :
  forall (flags : drivers.DriverOptions) (d : Driver) (w : World),
    drivers.Bool flags "google-use-existing" = false ->
    drivers.String flags "google-project" <> "" ->
    let image := drivers.String flags "google-machine-image" in
    let stored := MachineImage (driver (SetConfigFromFlags flags d w)) in
    (String.prefix image_api_prefix image = true ->
       (image_api_prefix ++ stored)%string = image) /\
    (String.prefix image_api_prefix image = false -> stored = image).
Proof.
  intros flags d w Huse Hproj. destruct d as [b].
  run_config.
  destruct (String.eqb (drivers.String flags "google-project") "") eqn:P;
    [apply String.eqb_eq in P; contradiction|].
  cbn -[strings.TrimPrefix String.prefix]. rewrite Huse.
  cbn -[strings.TrimPrefix String.prefix].
  split; intros H.
  - exact (TrimPrefix_restores image_api_prefix _ H).
  - unfold strings.TrimPrefix. unfold image_api_prefix in H. rewrite H. reflexivity.
Qed.

End Flag_properties.

(** ** Further properties: queries *)

Section Query_properties.
Context {cloud : Cloud}.

Lemma append_empty :
  forall s : string, (s ++ "")%string = s.
Proof.
  induction s as [|a s IH]; cbn; [reflexivity | now rewrite IH].
Qed.

(** X6. [GetSSHUsername] never returns the empty string: an empty
    [SSHUser] is first set to the default user name, a non-empty one is
    returned and the receiver left alone.  What is returned is what the
    receiver holds afterwards. *)
Theorem GetSSHUsername_never_empty :
  forall (d : Driver) (w : World),
    let o := GetSSHUsername d w in
    result o <> "" /\
    result o = drivers.SSHUser (BaseDriver (driver o)) /\
    (drivers.SSHUser (BaseDriver d) <> "" -> driver o = d) /\
    (drivers.SSHUser (BaseDriver d) = "" ->
       driver o = set_BaseDriver (drivers.set_SSHUser defaultUser (BaseDriver d)) d) /\
    trace o = [] /\ world o = w.
Proof.
  intros d w. destruct d as [b]. destruct b as [addr name user port store].
  unfold GetSSHUsername, bind, ret, this, assign; cbn.
  destruct (String.eqb user "") eqn:E; cbn.
  - apply String.eqb_eq in E. subst user.
    repeat split; try discriminate. congruence.
  - apply String.eqb_neq in E.
    repeat split; try assumption. congruence.
Qed.

(** X7. [GetIP] returns an address or an error, never both and never
    neither: its error is nil exactly when its address is non-empty.  It
    calls nothing but the client constructor and the address lookup and
    leaves the receiver alone. *)
Theorem GetIP_address_or_error :
  forall (d : Driver) (w : World),
    let o := GetIP d w in
    (snd (result o) = None <-> fst (result o) <> "") /\
    driver o = d /\
    (calls (trace o) = [call_newComputeUtil] \/
     calls (trace o) = [call_newComputeUtil; call_ip]).
Proof.
  intros d w. run_method.
  destruct (newComputeUtil_ d w) as [[c|e] w1]; cbn.
  - destruct (ip_ c w1) as [[addr [e|]] w2]; cbn.
    + repeat split; auto; try discriminate. congruence.
    + destruct (String.eqb addr "") eqn:E; cbn.
      * repeat split; auto; try discriminate. congruence.
      * apply String.eqb_neq in E. repeat split; auto.
  - repeat split; auto; try discriminate. congruence.
Qed.

(** X8. [GetURL] is [GetIP] with the address dressed up: same calls, same
    error; on an error the URL is empty, otherwise it is tcp://, the
    address (in brackets if it contains a colon) and port 2376. *)
Theorem GetURL_from_GetIP :
  forall (d : Driver) (w : World),
    let g := GetIP d w in
    let o := GetURL d w in
    snd (result o) = snd (result g) /\
    trace o = trace g /\ driver o = d /\ world o = world g /\
    (snd (result g) <> None -> fst (result o) = "") /\
    (snd (result g) = None ->
       let addr := fst (result g) in
       fst (result o) =
         if net.hasByte ":" addr
         then ("tcp://[" ++ addr ++ "]:2376")%string
         else ("tcp://" ++ addr ++ ":2376")%string).
Proof.
  intros d w. cbv zeta. unfold GetURL. rewrite bind_outcome. cbv zeta.
  pose proof (GetIP_keeps_receiver d w) as Hk.
  destruct (GetIP d w) as [[addr [e|]] d' w' t]; cbn in *; subst d'.
  - rewrite app_nil_r. repeat split. congruence.
  - rewrite app_nil_r. repeat split; try congruence.
    intros _. unfold net.JoinHostPort.
    destruct (net.hasByte ":" addr); cbn; rewrite append_empty; reflexivity.
Qed.

(** X9. When the client cannot be built, every method that starts by
    building it returns the constructor's error as it is, having called
    nothing else, and leaves the receiver alone. *)
Theorem client_failure_is_returned :
  forall (d : Driver) (w : World) (e : error) (w1 : World),
    newComputeUtil_ d w = (inr e, w1) ->
    let fails := mkOutcome (Some e) d w1 [(call_newComputeUtil, Some e)] in
    PreCreateCheck d w = fails /\
    Start d w = fails /\
    Stop d w = fails /\
    Kill d w = fails /\
    Restart d w = fails /\
    Remove d w = fails /\
    GetIP d w = mkOutcome ("", Some e) d w1 [(call_newComputeUtil, Some e)] /\
    GetURL d w = mkOutcome ("", Some e) d w1 [(call_newComputeUtil, Some e)] /\
    GetState d w = mkOutcome (state.None, Some e) d w1 [(call_newComputeUtil, Some e)].
Proof.
  intros d w e w1 H. unfold GetURL.
  run_method. rewrite H; cbn. repeat split.
Qed.

(** X10. The three queries change nothing: [GetState], [GetIP] and
    [GetURL] leave the receiver as it was and issue no provider
    mutation, whatever the provider answers. *)
Theorem queries_are_read_only :
  forall (d : Driver) (w : World),
    (driver (GetState d w) = d /\
     existsb is_provider_mutation (calls (trace (GetState d w))) = false) /\
    (driver (GetIP d w) = d /\
     existsb is_provider_mutation (calls (trace (GetIP d w))) = false) /\
    (driver (GetURL d w) = d /\
     existsb is_provider_mutation (calls (trace (GetURL d w))) = false).
Proof.
  intros d w. unfold GetURL. run_method.
  destruct (newComputeUtil_ d w) as [[c|e] w1]; cbn; [|repeat split].
  split; [|split].
  - destruct (instance_ c w1) as [[[i|] err] w2]; cbn.
    + destruct (String.eqb (Status i) "PROVISIONING" || String.eqb (Status i) "STAGING");
        [split; reflexivity|].
      destruct (String.eqb (Status i) "RUNNING"); [split; reflexivity|].
      destruct (String.eqb (Status i) "STOPPING" || String.eqb (Status i) "STOPPED"
                || String.eqb (Status i) "TERMINATED"); split; reflexivity.
    + destruct (match err with
                | Some e => strings.Contains (Error e) "not found"
                | None => false
                end); cbn; [split; reflexivity|].
      destruct (disk_ c w2) as [[[dk|] e'] w3]; split; reflexivity.
  - destruct (ip_ c w1) as [[addr [e|]] w2]; cbn; [split; reflexivity|].
    destruct (String.eqb addr ""); split; reflexivity.
  - destruct (ip_ c w1) as [[addr [e|]] w2]; cbn; [split; reflexivity|].
    destruct (String.eqb addr ""); split; reflexivity.
Qed.

(** X11. [GetState] probes the disk only when it has to: after the client
    and the instance probe, the disk probe is issued exactly when there is
    no instance object and the probe's error is not an explicit
    not-found; nothing else is ever called. *)
Theorem GetState_probes_disk_when_needed :
  forall (d : Driver) (w : World) (c : ComputeUtil) (w1 : World)
         (inst : option Instance) (err : option error) (w2 : World),
    newComputeUtil_ d w = (inl c, w1) ->
    instance_ c w1 = ((inst, err), w2) ->
    let o := GetState d w in
    calls (trace o) =
      [call_newComputeUtil; call_instance] ++
      (if negb (present inst) && negb (says_not_found err) then [call_disk] else []) /\
    world o =
      (if negb (present inst) && negb (says_not_found err)
       then snd (disk_ c w2) else w2).
Proof.
  intros d w c w1 inst err w2 Hc Hi.
  run_method. rewrite Hc; cbn. rewrite Hi; cbn. unfold says_not_found.
  destruct inst as [i|]; cbn.
  - destruct (String.eqb (Status i) "PROVISIONING" || String.eqb (Status i) "STAGING");
      [split; reflexivity|].
    destruct (String.eqb (Status i) "RUNNING"); [split; reflexivity|].
    destruct (String.eqb (Status i) "STOPPING" || String.eqb (Status i) "STOPPED"
              || String.eqb (Status i) "TERMINATED"); split; reflexivity.
  - destruct (match err with
              | Some e => strings.Contains (Error e) "not found"
              | None => false
              end); cbn; [split; reflexivity|].
    destruct (disk_ c w2) as [[[dk|] e'] w3]; split; reflexivity.
Qed.

End Query_properties.

(** ** Further properties: checks before creation *)

Section PreCreateCheck_more.
Context {cloud : Cloud}.

(** X12. The mode check of [PreCreateCheck] looks at the instance object
    only; the error the probe returned is dropped.  With no user data the
    check succeeds exactly when use-existing mode and the presence of an
    instance object coincide, so a probe that failed for any reason counts
    as "no instance". *)
Theorem PreCreateCheck_drops_probe_error :
  forall (d : Driver) (w : World) (c : ComputeUtil) (w1 w2 : World)
         (inst : option Instance) (err : option error) (w3 : World),
    newComputeUtil_ d w = (inl c, w1) ->
    Projects_Get_ c (Project d) w1 = (None, w2) ->
    instance_ c w2 = ((inst, err), w3) ->
    Userdata d = "" ->
    let o := PreCreateCheck d w in
    (result o = None <-> UseExisting d = present inst) /\
    calls (trace o) = [call_newComputeUtil; call_Projects_Get; call_instance] /\
    driver o = d /\ world o = w3.
Proof.
  intros d w c w1 w2 inst err w3 Hc Hp Hi Hu.
  run_method. rewrite Hc; cbn. rewrite Hp; cbn. rewrite Hi; cbn. rewrite Hu; cbn.
  destruct (UseExisting d), inst as [i|]; cbn; repeat split; congruence.
Qed.

(** X13. When the mode check passes and user data is configured,
    [PreCreateCheck] reads the file it names: the contents replace the
    path in [Userdata] and the check succeeds, or the read error is
    returned wrapped with the path and the receiver is left alone. *)
Theorem PreCreateCheck_inlines_userdata :
  forall (d : Driver) (w : World) (c : ComputeUtil) (w1 w2 : World)
         (inst : option Instance) (err : option error) (w3 : World),
    newComputeUtil_ d w = (inl c, w1) ->
    Projects_Get_ c (Project d) w1 = (None, w2) ->
    instance_ c w2 = ((inst, err), w3) ->
    UseExisting d = present inst ->
    Userdata d <> "" ->
    let o := PreCreateCheck d w in
    let r := os_ReadFile (Userdata d) w3 in
    calls (trace o) =
      [call_newComputeUtil; call_Projects_Get; call_instance; call_ReadFile] /\
    world o = snd r /\
    match fst r with
    | inl file => result o = None /\ driver o = set_Userdata file d
    | inr e =>
      result o = Some (fmt.Errorf "cannot read userdata file %v: %v"
                         [argString (Userdata d); argError e]) /\
      driver o = d
    end.
Proof.
  intros d w c w1 w2 inst err w3 Hc Hp Hi Hmode Hu.
  run_method. rewrite Hc; cbn. rewrite Hp; cbn. rewrite Hi; cbn.
  apply String.eqb_neq in Hu.
  destruct (UseExisting d), inst as [i|]; cbn in *; try discriminate.
  all: rewrite Hu; cbn.
  all: destruct (os_ReadFile (Userdata d) w3) as [[file|e] w4]; cbn; repeat split.
Qed.

(** X14. When the project cannot be fetched, [PreCreateCheck] stops
    there: the error names the project and carries the provider's error,
    the instance is not probed and the receiver is left alone. *)
Theorem PreCreateCheck_project_failure :
  forall (d : Driver) (w : World) (c : ComputeUtil) (w1 w2 : World) (e : error),
    newComputeUtil_ d w = (inl c, w1) ->
    Projects_Get_ c (Project d) w1 = (Some e, w2) ->
    PreCreateCheck d w =
      mkOutcome
        (Some (fmt.Errorf "Project with ID %q not found. %v"
                 [argString (Project d); argError e]))
        d w2 [(call_newComputeUtil, None); (call_Projects_Get, Some e)].
Proof.
  intros d w c w1 w2 e Hc Hp.
  run_method. rewrite Hc; cbn. rewrite Hp; cbn. reflexivity.
Qed.

End PreCreateCheck_more.

(** ** Further properties: creation *)

Section Create_more.
Context {cloud : Cloud}.

(** Every path through [Create]. *)
Ltac create_paths d w :=
  run_method;
  destruct (ssh_GenerateSSHKey (GetSSHKeyPath (BaseDriver d)) w) as [[?e|] ?w]; cbn;
  [|
   match goal with
   | |- context [newComputeUtil_ d ?w0] =>
     destruct (newComputeUtil_ d w0) as [[?c|?e] ?w]; cbn
   end;
   [destruct (OpenPorts d) as [|?p ?ps] eqn:?Ports; cbn;
    destruct (String.eqb (ExternalFirewallRulePrefix d) "") eqn:?Ext; cbn;
    destruct (String.eqb (InternalFirewallRulePrefix d) "") eqn:?Int; cbn;
    destruct (UseExisting d) eqn:?Use; cbn;
    repeat split_call
   |]].

(** X15. [Create] stops at the first call that fails: every call but the
    last one returned nil, and if the last one failed [Create] returns
    its error.  An error [Create] returns is that of its last call or the
    missing-prefix guard's.  The first call is the key generation and the
    receiver is left alone. *)
Theorem Create_stops_at_first_failure :
  forall (d : Driver) (w : World),
    let o := Create d w in
    let final := last (trace o) (call_GenerateSSHKey, None) in
    Forall (fun ev : Event => snd ev = None) (removelast (trace o)) /\
    (forall e, snd final = Some e -> result o = Some e) /\
    (forall e, result o = Some e -> snd final = Some e \/ e = missing_external_prefix) /\
    hd_error (calls (trace o)) = Some call_GenerateSSHKey /\
    driver o = d.
Proof.
  intros d w. create_paths d w.
  all: repeat split; intros;
       try congruence;
       try solve [left; congruence];
       try solve [right; unfold missing_external_prefix; congruence];
       try solve [repeat constructor].
Qed.

(** X16. What [Create] never calls: nothing outside key generation, the
    client, the two firewall reconcilers and the instance; no external
    rule without open ports, no internal rule without its prefix; an
    existing instance is configured and never created, a new one created
    and never configured. *)
Theorem Create_guards :
  forall (d : Driver) (w : World),
    let cs := calls (trace (Create d w)) in
    forallb is_Create_call cs = true /\
    (OpenPorts d = [] -> ~ In call_openPublicFirewallPorts cs) /\
    (InternalFirewallRulePrefix d = "" -> ~ In call_openInternalFirewallPorts cs) /\
    (UseExisting d = true -> ~ In call_createInstance cs) /\
    (UseExisting d = false -> ~ In call_configureInstance cs).
Proof.
  intros d w. create_paths d w.
  all: try apply String.eqb_neq in Int.
  all: repeat split; try reflexivity; intros; cbn;
       try congruence; intuition discriminate.
Qed.

End Create_more.

(** ** Further properties: removal *)

Section Remove_more.
Context {cloud : Cloud}.

(** Every path through [Remove] once the client is built. *)
Ltac remove_paths d c w1 :=
  destruct (deleteInstance_ c w1) as [[?e|] ?w]; cbn;
  repeat match goal with
         | |- context [isNotFound (Some ?e)] =>
           let N := fresh "N" in destruct (isNotFound (Some e)) eqn:N; cbn
         end;
  try match goal with
      | |- context [deleteDisk_ c ?w2] =>
        destruct (deleteDisk_ c w2) as [[?e|] ?w]; cbn
      end;
  repeat match goal with
         | |- context [isNotFound (Some ?e)] =>
           let N := fresh "N" in destruct (isNotFound (Some e)) eqn:N; cbn
         end;
  destruct (OpenPorts d) as [|?p ?ps] eqn:?Ports; cbn;
  destruct (String.eqb (internalFirewallRulePrefix c) "") eqn:?Int; cbn;
  repeat split_call.

(** X17. Nothing left to remove is no error: when the instance delete,
    the disk delete and the rule lookups that are issued (the external
    one when ports are open, the internal one when the prefix is set)
    each report a not-found, [Remove] returns nil, has cleaned up no
    rule, and leaves the receiver alone. *)
Theorem Remove_of_nothing_succeeds :
  forall (d : Driver) (w : World) (c : ComputeUtil) (w1 : World),
    newComputeUtil_ d w = (inl c, w1) ->
    let r1 := deleteInstance_ c w1 in
    let r2 := deleteDisk_ c (snd r1) in
    let x := externalFirewallRule_ c (snd r2) in
    let i := internalFirewallRule_ c
               (match OpenPorts d with [] => snd r2 | _ :: _ => snd x end) in
    isNotFound (fst r1) = true ->
    isNotFound (fst r2) = true ->
    (OpenPorts d <> [] -> isNotFound (snd (fst x)) = true) ->
    (internalFirewallRulePrefix c <> "" -> isNotFound (snd (fst i)) = true) ->
    let o := Remove d w in
    result o = None /\
    existsb is_call_CleanUpFirewallRule (calls (trace o)) = false /\
    driver o = d.
Proof.
  intros d w c w1 Hc. cbv zeta.
  run_method. rewrite Hc; cbn.
  destruct (deleteInstance_ c w1) as [e1 w2]; cbn. intros H1.
  destruct e1 as [e1|]; cbn; rewrite ?H1; cbn.
  all: destruct (deleteDisk_ c w2) as [e2 w3]; cbn; intros H2.
  all: destruct e2 as [e2|]; cbn; rewrite ?H2; cbn.
  (* the external lookup, if it is issued, reports not-found *)
  all: destruct (OpenPorts d) as [|p ps]; cbn; intros Hx;
    [clear Hx
    |specialize (Hx ltac:(discriminate));
     destruct (externalFirewallRule_ c w3) as [[xr xe] w4]; cbn in Hx |- *;
     rewrite Hx; cbn].
  (* and so does the internal one *)
  all: destruct (String.eqb (internalFirewallRulePrefix c) "") eqn:P; cbn; intros Hi;
    [clear Hi
    |apply String.eqb_neq in P; specialize (Hi P);
     match type of Hi with
     | context [internalFirewallRule_ ?c' ?w'] =>
       destruct (internalFirewallRule_ c' w') as [[ir ie] w5]
     end;
     cbn in Hi |- *; rewrite Hi; cbn].
  all: repeat split.
Qed.

(** X18. What [Remove] calls once the client is built: only deletes,
    rule lookups and rule clean-ups; no external rule lookup without open
    ports, no internal one without the prefix; and a rule is cleaned up
    only after its lookup returned without error, under the label key of
    its kind.  The receiver is left alone. *)
Theorem Remove_cleans_up_what_it_found :
  forall (d : Driver) (w : World) (c : ComputeUtil) (w1 : World),
    newComputeUtil_ d w = (inl c, w1) ->
    let o := Remove d w in
    forallb is_Remove_call (calls (trace o)) = true /\
    driver o = d /\
    (OpenPorts d = [] -> ~ In call_externalFirewallRule (calls (trace o))) /\
    (internalFirewallRulePrefix c = "" ->
       ~ In call_internalFirewallRule (calls (trace o))) /\
    (forall key e,
        In (call_CleanUpFirewallRule key, e) (trace o) ->
        (key = externalFirewallRuleLabelKey /\
         In (call_externalFirewallRule, None) (trace o)) \/
        (key = internalFirewallRuleLabelKey /\
         In (call_internalFirewallRule, None) (trace o))).
Proof.
  intros d w c w1 Hc.
  run_method. rewrite Hc; cbn.
  remove_paths d c w1.
  all: try apply String.eqb_neq in Int.
  all: split; [reflexivity|].
  all: split; [reflexivity|].
  all: split; [intros; cbn; try congruence; intuition discriminate|].
  all: split; [intros; cbn; try congruence; intuition discriminate|].
  all: intros key err Hin; cbn in Hin.
  all: repeat match goal with
              | H : _ \/ _ |- _ => destruct H as [H|H]
              end;
       try discriminate; try contradiction.
  all: inversion Hin; subst.
  all: first [ left; split; [reflexivity | cbn; tauto]
             | right; split; [reflexivity | cbn; tauto] ].
Qed.

End Remove_more.

(** ** Further properties: start, stop, restart *)

Section Power_properties.
Context {cloud : Cloud}.

(** X19. A [Stop] that fails leaves the receiver as it was, cached
    address included; one that succeeds changes the cached address only;
    [Kill] is [Stop]. *)
Theorem Stop_changes_only_the_address :
  forall (d : Driver) (w : World),
    let o := Stop d w in
    (result o <> None -> driver o = d) /\
    (result o = None ->
       driver o = set_BaseDriver (drivers.set_IPAddress "" (BaseDriver d)) d /\
       trace o = [(call_newComputeUtil, None); (call_stopInstance, None)]) /\
    Kill d w = o.
Proof.
  intros d w. run_method.
  destruct (newComputeUtil_ d w) as [[c|e] w1]; cbn.
  - destruct (stopInstance_ c w1) as [[e|] w2]; cbn; repeat split; congruence.
  - repeat split; congruence.
Qed.

(** X20. A [Start] that returns nil has recorded a non-empty address, and
    the address is all it changed in the receiver; a [Start] that fails
    leaves the cached address as it was or empty. *)
Theorem Start_success_records_address :
  forall (d : Driver) (w : World),
    let o := Start d w in
    let addr := drivers.IPAddress (BaseDriver (driver o)) in
    driver o = set_BaseDriver (drivers.set_IPAddress addr (BaseDriver d)) d /\
    (result o = None -> addr <> "") /\
    (result o <> None -> addr = drivers.IPAddress (BaseDriver d) \/ addr = "").
Proof.
  intros d w. destruct d as [b]. destruct b as [a0 name user port store].
  run_method.
  repeat split_call.
  all: repeat match goal with
              | |- context [String.eqb ?a ""] =>
                let E := fresh "E" in destruct (String.eqb a "") eqn:E; cbn;
                [apply String.eqb_eq in E | apply String.eqb_neq in E]
              end.
  all: repeat split; intros; try congruence; auto.
Qed.

(** X21. [Restart] calls nothing but what [Stop] and [Start] call, so it
    never deletes anything and never touches a firewall rule; a [Restart]
    that returns nil has recorded a non-empty address, and the address is
    all it changed in the receiver. *)
Theorem Restart_success_records_address :
  forall (d : Driver) (w : World),
    let o := Restart d w in
    let addr := drivers.IPAddress (BaseDriver (driver o)) in
    forallb (fun c => is_Stop_call c || is_Start_call c) (calls (trace o)) = true /\
    driver o = set_BaseDriver (drivers.set_IPAddress addr (BaseDriver d)) d /\
    (result o = None -> addr <> "").
Proof.
  intros d w. destruct d as [b]. destruct b as [a0 name user port store].
  run_method.
  repeat split_call.
  all: repeat match goal with
              | |- context [String.eqb ?a ""] =>
                let E := fresh "E" in destruct (String.eqb a "") eqn:E; cbn;
                [apply String.eqb_eq in E | apply String.eqb_neq in E]
              end.
  all: repeat split; intros; try congruence; auto.
Qed.

End Power_properties.

(** ** Further properties on concrete inputs *)

(** X1, witness: every flag but the project is given. *)
Lemma SetConfigFromFlags_requires_project_witness :
  let flags := Mock.flags "" false true true in
  let o := @SetConfigFromFlags Mock.cloud flags Mock.host Mock.empty in
  drivers.String flags "google-project" = "" /\
  result o = Some missing_project /\
  Zone (driver o) = defaultZone /\
  MachineType (driver o) = defaultMachineType /\
  Project (driver o) = "".
Proof.
  intros flags o.
  destruct (@SetConfigFromFlags_requires_project Mock.cloud flags Mock.host Mock.empty
              eq_refl) as [Hres [Hdrv _]].
  split; [reflexivity|]. split; [exact Hres|].
  unfold o. rewrite Hdrv. repeat split.
Defined.

(** X2, witness: a flag of another driver makes no difference. *)
Lemma SetConfigFromFlags_reads_declared_flags_witness :
  let f1 := Mock.flags "proj" false true false in
  let f2 := with_foreign_flag f1 in
  agree_on_declared f1 f2 /\
  drivers.String f1 "amazonec2-region" <> drivers.String f2 "amazonec2-region" /\
  @SetConfigFromFlags Mock.cloud f1 Mock.host Mock.empty =
  @SetConfigFromFlags Mock.cloud f2 Mock.host Mock.empty.
Proof.
  intros f1 f2.
  assert (Hagree : agree_on_declared f1 f2).
  { intros f Hin. cbn in Hin.
    repeat destruct Hin as [<-|Hin]; try reflexivity. contradiction. }
  split; [exact Hagree|]. split; [discriminate|].
  exact (@SetConfigFromFlags_reads_declared_flags Mock.cloud f1 f2 Hagree
           (fun b => eq_refl) Mock.host Mock.empty).
Defined.

(** X3, witness: only the project is given on the command line. *)
Lemma SetConfigFromFlags_defaults_match_NewDriver_witness :
  let flags := default_options "proj" in
  let d := NewDriver "vm-1" "/var/lib/machine" in
  let o := @SetConfigFromFlags Mock.cloud flags d Mock.empty in
  carries_defaults flags "google-project" /\
  drivers.String flags "google-project" <> "" /\
  result o = None /\
  driver o = set_BaseDriver (drivers.set_SSHPort 22 (BaseDriver d)) (set_Project "proj" d).
Proof.
  intros flags d o.
  assert (Hdef : carries_defaults flags "google-project").
  { intros f Hin Hne. cbn in Hin.
    repeat destruct Hin as [<-|Hin]; try reflexivity; contradiction. }
  assert (Hproj : drivers.String flags "google-project" <> "") by discriminate.
  destruct (@SetConfigFromFlags_defaults_match_NewDriver Mock.cloud flags
              "vm-1" "/var/lib/machine" Mock.empty Hdef Hproj) as [Hres Hdrv].
  split; [exact Hdef|]. split; [exact Hproj|]. split; [exact Hres|].
  exact Hdrv.
Defined.

(** X4, witness: a configured host and a fresh driver of the same name. *)
Lemma SetConfigFromFlags_overwrites_configuration_witness :
  let flags := Mock.flags "proj" false false false in
  let d1 := Mock.host in
  let d2 := NewDriver "vm-1" "/var/lib/machine" in
  BaseDriver d1 = BaseDriver d2 /\
  InternalFirewallRulePrefix d1 <> InternalFirewallRulePrefix d2 /\
  @SetConfigFromFlags Mock.cloud flags d1 Mock.empty =
  @SetConfigFromFlags Mock.cloud flags d2 Mock.empty.
Proof.
  intros flags d1 d2.
  split; [reflexivity|]. split; [discriminate|].
  apply (@SetConfigFromFlags_overwrites_configuration Mock.cloud flags d1 d2 Mock.empty);
    [reflexivity | reflexivity | discriminate].
Defined.

(** X5, witness: an image given by its API URL. *)
Lemma SetConfigFromFlags_machine_image_witness :
  let flags := Mock.flags "proj" false false false in
  let o := @SetConfigFromFlags Mock.cloud flags Mock.host Mock.empty in
  drivers.Bool flags "google-use-existing" = false /\
  String.prefix image_api_prefix (drivers.String flags "google-machine-image") = true /\
  (image_api_prefix ++ MachineImage (driver o))%string =
    drivers.String flags "google-machine-image" /\
  MachineImage (driver o) = "debian-cloud/global/images/debian-12".
Proof.
  intros flags o.
  assert (Hproj : drivers.String flags "google-project" <> "") by discriminate.
  destruct (@SetConfigFromFlags_machine_image Mock.cloud flags Mock.host Mock.empty
              eq_refl Hproj) as [Hcut _].
  split; [reflexivity|]. split; [reflexivity|].
  split; [exact (Hcut eq_refl) | reflexivity].
Defined.

(** X9, witness: the credentials are refused. *)
Lemma client_failure_is_returned_witness :
  let w := Mock.failing is_call_newComputeUtil Mock.unavailable Mock.running in
  @newComputeUtil_ Mock.cloud Mock.host w = (inr Mock.unavailable, w) /\
  result (@Remove Mock.cloud Mock.host w) = Some Mock.unavailable /\
  world (@Remove Mock.cloud Mock.host w) = w /\
  result (@GetState Mock.cloud Mock.host w) = (state.None, Some Mock.unavailable).
Proof.
  intros w.
  destruct (@client_failure_is_returned Mock.cloud Mock.host w Mock.unavailable w eq_refl)
    as [_ [_ [_ [_ [_ [Hrm [_ [_ Hst]]]]]]]].
  split; [reflexivity|].
  rewrite Hrm, Hst. repeat split.
Defined.

(** X11, witness: the instance probe fails with a 503; the disk decides. *)
Lemma GetState_probes_disk_when_needed_witness :
  let w := Mock.failing is_call_instance Mock.unavailable
             (Mock.with_disk true Mock.empty) in
  let o := @GetState Mock.cloud Mock.host w in
  @newComputeUtil_ Mock.cloud Mock.host w = (inl Mock.host, w) /\
  @instance_ Mock.cloud Mock.host w = ((None, Some Mock.unavailable), w) /\
  calls (trace o) = [call_newComputeUtil; call_instance; call_disk] /\
  result o = (state.Stopped, None).
Proof.
  intros w o.
  destruct (@GetState_probes_disk_when_needed Mock.cloud Mock.host w Mock.host w
              None (Some Mock.unavailable) w eq_refl eq_refl) as [Hcalls _].
  do 2 (split; [reflexivity|]).
  split; [exact Hcalls | reflexivity].
Defined.

(** X12, witness: the instance exists, but the probe fails with a 503;
    the check for a new host passes all the same. *)
Lemma PreCreateCheck_drops_probe_error_witness :
  let w := Mock.failing is_call_instance Mock.unavailable Mock.running in
  let o := @PreCreateCheck Mock.cloud Mock.host w in
  Mock.remoteInstance w <> None /\
  @newComputeUtil_ Mock.cloud Mock.host w = (inl Mock.host, w) /\
  @Projects_Get_ Mock.cloud Mock.host (Project Mock.host) w = (None, w) /\
  @instance_ Mock.cloud Mock.host w = ((None, Some Mock.unavailable), w) /\
  Userdata Mock.host = "" /\
  result o = None.
Proof.
  intros w o.
  destruct (@PreCreateCheck_drops_probe_error Mock.cloud Mock.host w Mock.host w w
              None (Some Mock.unavailable) w eq_refl eq_refl eq_refl eq_refl)
    as [Hiff _].
  split; [discriminate|].
  do 4 (split; [reflexivity|]).
  apply Hiff. reflexivity.
Defined.

(** X13, witness: user data in a readable file. *)
Lemma PreCreateCheck_inlines_userdata_witness :
  let d := set_Userdata "/etc/cloud.yaml" Mock.host in
  let o := @PreCreateCheck Mock.cloud d Mock.empty in
  @newComputeUtil_ Mock.cloud d Mock.empty = (inl d, Mock.empty) /\
  @Projects_Get_ Mock.cloud d (Project d) Mock.empty = (None, Mock.empty) /\
  @instance_ Mock.cloud d Mock.empty = ((None, Some Mock.notFound), Mock.empty) /\
  UseExisting d = false /\
  Userdata d <> "" /\
  result o = None /\
  Userdata (driver o) = "#cloud-config from /etc/cloud.yaml".
Proof.
  intros d o.
  assert (Hu : Userdata d <> "") by discriminate.
  destruct (@PreCreateCheck_inlines_userdata Mock.cloud d Mock.empty d Mock.empty
              Mock.empty None (Some Mock.notFound) Mock.empty
              eq_refl eq_refl eq_refl eq_refl Hu) as [_ [_ [Hres Hdrv]]].
  do 4 (split; [reflexivity|]).
  split; [exact Hu|]. split; [exact Hres|].
  unfold o. rewrite Hdrv. reflexivity.
Defined.

(** X14, witness: the project lookup fails. *)
Lemma PreCreateCheck_project_failure_witness :
  let w := Mock.failing is_call_Projects_Get Mock.unavailable Mock.empty in
  let o := @PreCreateCheck Mock.cloud Mock.host w in
  @newComputeUtil_ Mock.cloud Mock.host w = (inl Mock.host, w) /\
  @Projects_Get_ Mock.cloud Mock.host (Project Mock.host) w = (Some Mock.unavailable, w) /\
  result o = Some (fmt.Errorf "Project with ID %q not found. %v"
                     [argString "proj"; argError Mock.unavailable]) /\
  calls (trace o) = [call_newComputeUtil; call_Projects_Get].
Proof.
  intros w o.
  pose proof (@PreCreateCheck_project_failure Mock.cloud Mock.host w Mock.host w w
                Mock.unavailable eq_refl eq_refl) as H.
  do 2 (split; [reflexivity|]).
  unfold o. rewrite H. split; reflexivity.
Defined.

(** X17, witness: removing a host of which nothing exists remotely. *)
Lemma Remove_of_nothing_succeeds_witness :
  let o := @Remove Mock.cloud Mock.host Mock.empty in
  @newComputeUtil_ Mock.cloud Mock.host Mock.empty = (inl Mock.host, Mock.empty) /\
  fst (@deleteInstance_ Mock.cloud Mock.host Mock.empty) = Some Mock.notFound /\
  result o = None /\
  calls (trace o) =
    [call_newComputeUtil; call_deleteInstance; call_deleteDisk;
     call_externalFirewallRule; call_internalFirewallRule].
Proof.
  intros o.
  destruct (@Remove_of_nothing_succeeds Mock.cloud Mock.host Mock.empty Mock.host
              Mock.empty eq_refl eq_refl eq_refl (fun _ => eq_refl) (fun _ => eq_refl))
    as [Hres _].
  do 2 (split; [reflexivity|]).
  split; [exact Hres | reflexivity].
Defined.

(** Removing twice: the second run finds nothing and succeeds. *)
Example Remove_twice :
  let o1 := @Remove Mock.cloud Mock.host Mock.running in
  let o2 := @Remove Mock.cloud (driver o1) (world o1) in
  result o1 = None /\ result o2 = None /\
  world o1 = Mock.empty /\ world o2 = Mock.empty /\
  existsb is_call_CleanUpFirewallRule (calls (trace o1)) = true /\
  existsb is_call_CleanUpFirewallRule (calls (trace o2)) = false.
Proof.
  vm_compute. repeat split.
Qed.

(** X18, witness: removing a running host with both rules in place. *)
Lemma Remove_cleans_up_what_it_found_witness :
  let o := @Remove Mock.cloud Mock.host Mock.running in
  @newComputeUtil_ Mock.cloud Mock.host Mock.running = (inl Mock.host, Mock.running) /\
  In (call_CleanUpFirewallRule "external-firewall-rule", None) (trace o) /\
  In (call_externalFirewallRule, None) (trace o) /\
  forallb is_Remove_call (calls (trace o)) = true.
Proof.
  intros o.
  destruct (@Remove_cleans_up_what_it_found Mock.cloud Mock.host Mock.running Mock.host
              Mock.running eq_refl) as [Hcalls [_ [_ [_ Hclean]]]].
  assert (Hin : In (call_CleanUpFirewallRule "external-firewall-rule", None) (trace o)).
  { cbn. tauto. }
  split; [reflexivity|]. split; [exact Hin|].
  split; [|exact Hcalls].
  destruct (Hclean _ _ Hin) as [[_ H]|[Hkey _]]; [exact H | discriminate Hkey].
Defined.

(** The URL of a host with an IPv4 and with an IPv6 address. *)
Example GetURL_addresses :
  result (@GetURL Mock.cloud Mock.host Mock.running) = ("tcp://203.0.113.7:2376", None) /\
  result (@GetURL Mock.cloud Mock.host (Mock.with_address "2001:db8::7" Mock.running)) =
    ("tcp://[2001:db8::7]:2376", None) /\
  result (@GetURL Mock.cloud Mock.host (Mock.with_address "" Mock.running)) =
    ("", Some drivers.ErrHostIsNotRunning).
Proof.
  vm_compute. repeat split.
Qed.
